(** * GnuCash-Helper: a shallow embedding of [gnucash_helper.py] and [app.py]

    The helper is a thin layer over the piecash accounting-file library:
    it resolves accounts by name, appends two-split transactions, lists the
    most recent transactions and renders balances.  This development embeds
    the helper's functions over an explicit model of the Python values they
    manipulate (text, [decimal.Decimal], binary64 floats, exceptions, the
    logger) and of the piecash object graph, and proves the properties the
    specification states about them. *)

From Stdlib Require Import ZArith List String Ascii Bool Lia Sorted Permutation.
From Stdlib Require Import DecimalString DecimalPos DecimalN.
Import ListNotations.

Local Open Scope string_scope.
Local Open Scope list_scope.
Local Open Scope Z_scope.

(** ** Python text *)

Module Text.

(** The double-quote character, written inside f-strings of the source. *)
Definition dq : string := String (ascii_of_nat 34) EmptyString.

(** [c.lower()] on one character.  Strings are modelled as byte strings and
    case folding acts on the ASCII letters. *)
Definition lower_ascii (c : ascii) : ascii :=
  let n := nat_of_ascii c in
  if ((65 <=? n) && (n <=? 90))%nat then ascii_of_nat (n + 32) else c.

(** [s.lower()] *)
Fixpoint lower (s : string) : string :=
  match s with
  | EmptyString => EmptyString
  | String c r => String (lower_ascii c) (lower r)
  end.

(** [s.replace(c, by)] for a one-character pattern [c]. *)
Fixpoint replace (c : ascii) (by_ : string) (s : string) : string :=
  match s with
  | EmptyString => EmptyString
  | String a r =>
      if Ascii.eqb a c then (by_ ++ replace c by_ r)%string
      else String a (replace c by_ r)
  end.

Definition is_digit (c : ascii) : bool :=
  let n := nat_of_ascii c in ((48 <=? n) && (n <=? 57))%nat.

(** Python's [str.isspace] restricted to the ASCII white space. *)
Definition is_space (c : ascii) : bool :=
  let n := nat_of_ascii c in
  ((9 <=? n) && (n <=? 13) || (28 <=? n) && (n <=? 32))%nat.

(** The decimal digits of a natural number, most significant first. *)
Definition digits (n : Z) : list ascii :=
  list_ascii_of_string (NilEmpty.string_of_uint (N.to_uint (Z.to_N n))).

(** [str(n)] for an [int]. *)
Definition str_int (n : Z) : string :=
  if n <? 0 then String "-" (string_of_list_ascii (digits (- n)))
  else string_of_list_ascii (digits n).

(** Left padding with zeros up to [width] characters, as [%0<width>d]. *)
Definition zero_pad (width : nat) (l : list ascii) : list ascii :=
  repeat "0"%char (width - List.length l) ++ l.

(** Insertion of the thousands separator, on the reversed digit list: a
    comma after every third digit that still has a digit after it. *)
Fixpoint group_thousands_rev (ds : list ascii) : list ascii :=
  match ds with
  | d1 :: d2 :: d3 :: ((_ :: _) as rest) =>
      d1 :: d2 :: d3 :: ","%char :: group_thousands_rev rest
  | _ => ds
  end.

Definition group_thousands (ds : list ascii) : list ascii :=
  rev (group_thousands_rev (rev ds)).

(** Rounding of the non-negative quotient [n / d] to the nearest integer,
    ties to even: the rounding of [format(x, '.2f')] and of float
    conversion. *)
Definition round_half_even (n d : Z) : Z :=
  let q := n / d in
  let r := n mod d in
  if 2 * r <? d then q
  else if d <? 2 * r then q + 1
  else if Z.even q then q else q + 1.

(** The text of an amount given in hundredths: integer part (grouped or
    not), point, two digits. *)
Definition fixed2 (grouped : bool) (cents : Z) : string :=
  let int_part := digits (cents / 100) in
  string_of_list_ascii
    ((if grouped then group_thousands int_part else int_part)
       ++ "."%char :: zero_pad 2 (digits (cents mod 100))).

End Text.

Import Text.

(** ** Python numbers and dates *)

(** A finite [decimal.Decimal]: the number [coefficient * 10 ^ exponent].
    Amounts reach the helper either from the web form or from the
    numerator/denominator pairs of the book, so the special values (NaN,
    infinities) and the negative zero are left out, and arithmetic is
    exact (the 28-digit context precision is never reached by amounts
    that fit GnuCash's 64-bit numerators). *)
Record Decimal : Type := mkDecimal { coefficient : Z; exponent : Z }.

(** Numerator and denominator of the value of a [Decimal], sign apart. *)
Definition numerator (d : Decimal) : Z :=
  Z.abs (coefficient d) * 10 ^ Z.max (exponent d) 0.

Definition denominator (d : Decimal) : Z := 10 ^ Z.max (- exponent d) 0.

(** [d.is_signed()] *)
Definition is_signed (d : Decimal) : bool := coefficient d <? 0.

(** [-d] *)
Definition neg (d : Decimal) : Decimal :=
  mkDecimal (- coefficient d) (exponent d).

(** [abs(d)] *)
Definition dec_abs (d : Decimal) : Decimal :=
  mkDecimal (Z.abs (coefficient d)) (exponent d).

(** [d1 + d2]: the operands are brought to the smaller exponent. *)
Definition add (d1 d2 : Decimal) : Decimal :=
  let e := Z.min (exponent d1) (exponent d2) in
  mkDecimal (coefficient d1 * 10 ^ (exponent d1 - e)
             + coefficient d2 * 10 ^ (exponent d2 - e)) e.

(** [d == 0], [d > 0] and [d < 0] *)
Definition is_zero (d : Decimal) : bool := coefficient d =? 0.
Definition is_positive (d : Decimal) : bool := 0 <? coefficient d.
Definition is_negative (d : Decimal) : bool := coefficient d <? 0.

(** [format(d, ',.2f')] for a [Decimal]: quantized to two places, ties to
    even, with the sign of [d] and thousands separators. *)
Definition format_decimal_grouped_2f (d : Decimal) : string :=
  let cents := round_half_even (numerator d * 100) (denominator d) in
  ((if is_signed d then "-" else "") ++ fixed2 true cents)%string.

(** A binary64 float: [mant * 2 ^ exp] with [0 <= mant <= 2 ^ 53], or an
    infinity. *)
Inductive float : Type :=
| Finite (negative : bool) (mant : Z) (exp : Z)
| Infinity (negative : bool).

(** [float(d)]: the binary64 number nearest to [d], ties to even, with
    gradual underflow and overflow to infinity. *)
Definition float_of_decimal (d : Decimal) : float :=
  let n := numerator d in
  let den := denominator d in
  if n =? 0 then Finite (is_signed d) 0 0
  else
    let e0 := Z.log2 n - Z.log2 den - 52 in
    let e1 :=
      if 2 ^ 52 * den * 2 ^ Z.max e0 0 <=? n * 2 ^ Z.max (- e0) 0
      then e0 else e0 - 1 in
    let e := Z.max e1 (-1074) in
    let m := round_half_even (n * 2 ^ Z.max (- e) 0) (den * 2 ^ Z.max e 0) in
    if (971 <? e) || (e =? 971) && (m =? 2 ^ 53)
    then Infinity (is_signed d)
    else Finite (is_signed d) m e.

(** [format(x, '.2f')] for a float: the exact binary value rounded to two
    places, ties to even. *)
Definition format_float_2f (x : float) : string :=
  match x with
  | Infinity s => if s then "-inf" else "inf"
  | Finite s m e =>
      let cents :=
        round_half_even (m * 100 * 2 ^ Z.max e 0) (2 ^ Z.max (- e) 0) in
      ((if s then "-" else "") ++ fixed2 false cents)%string
  end.

(** A calendar date, and [str(date)]. *)
Record Date : Type := mkDate { year : Z; month : Z; day : Z }.

Definition str_date (d : Date) : string :=
  string_of_list_ascii
    (zero_pad 4 (digits (year d)) ++ "-"%char
       :: zero_pad 2 (digits (month d)) ++ "-"%char
       :: zero_pad 2 (digits (day d))).

(** ** Python control: exceptions, [sys.exit], the logger *)

Inductive exn : Type :=
| KeyError (msg : string)
| ValueError (msg : string)
| TypeError (msg : string)
| GnucashException (msg : string).

(** [str(e)] *)
Definition str_exn (e : exn) : string :=
  match e with
  | KeyError m | ValueError m | TypeError m | GnucashException m => m
  end.

(** [repr(s)] of a text without quotes or escapes; [str(KeyError(s))] is
    this text. *)
Definition repr (s : string) : string := ("'" ++ s ++ "'")%string.

(** How a call ends: it returns, an exception propagates out of it, or
    [sys.exit(code)] ends the process. *)
Inductive outcome (A : Type) : Type :=
| Returned (a : A)
| Raised (e : exn)
| Exited (code : Z).

Arguments Returned {A} a.
Arguments Raised {A} e.
Arguments Exited {A} code.

Inductive level : Type := DEBUG | INFO | WARNING | ERROR | CRITICAL.

Definition LogRecord : Type := (level * string)%type.

(** A [dict] with text keys and values, in insertion order. *)
Definition dict : Type := list (string * string).

Fixpoint dict_get (k : string) (d : dict) : option string :=
  match d with
  | [] => None
  | (k', v) :: r => if (k' =? k)%string then Some v else dict_get k r
  end.

(** [d[k] = v] *)
Fixpoint dict_set (k v : string) (d : dict) : dict :=
  match d with
  | [] => [(k, v)]
  | (k', v') :: r =>
      if (k' =? k)%string then (k, v) :: r else (k', v') :: dict_set k v r
  end.

(** [l[start:]] *)
Definition slice_from {A : Type} (start : Z) (l : list A) : list A :=
  let len := Z.of_nat (List.length l) in
  let s := if start <? 0 then Z.max (len + start) 0 else Z.min start len in
  skipn (Z.to_nat s) l.

(** [sorted(l, key=key)]: the stable sort on text keys. *)
Fixpoint insert_sorted {A : Type} (key : A -> string) (x : A) (l : list A)
  : list A :=
  match l with
  | [] => [x]
  | y :: r =>
      if (key x <=? key y)%string then x :: y :: r
      else y :: insert_sorted key x r
  end.

Definition sorted {A : Type} (key : A -> string) (l : list A) : list A :=
  fold_right (insert_sorted key) [] l.

(** [int(s)] on a text: optional white space around an optional sign and
    decimal digits, single underscores allowed between digits.  The
    digits and the white space are the ASCII ones. *)
Fixpoint strip_left (l : list ascii) : list ascii :=
  match l with
  | c :: r => if is_space c then strip_left r else l
  | [] => []
  end.

Definition strip (l : list ascii) : list ascii :=
  rev (strip_left (rev (strip_left l))).

Fixpoint parse_digits (l : list ascii) (after_digit : bool) (acc : Z)
  : option Z :=
  match l with
  | [] => if after_digit then Some acc else None
  | c :: r =>
      if is_digit c
      then parse_digits r true (10 * acc + (Z.of_nat (nat_of_ascii c) - 48))
      else if Ascii.eqb c "_" && after_digit then parse_digits r false acc
      else None
  end.

Definition int_of_text (s : string) : option Z :=
  match strip (list_ascii_of_string s) with
  | "-"%char :: r => option_map Z.opp (parse_digits r false 0)
  | "+"%char :: r => parse_digits r false 0
  | r => parse_digits r false 0
  end.

(** ** The piecash object graph *)

Module piecash.

Record Commodity : Type := mkCommodity {
  namespace : string;
  mnemonic : string
}.

(** An account.  [fullname] is the colon-separated path that piecash
    derives from the chain of parents; [parent] is the full name of the
    parent account (empty under the root). *)
Record Account : Type := mkAccount {
  name : string;
  fullname : string;
  type : string;
  parent : string;
  commodity : Commodity
}.

Record Split : Type := mkSplit {
  value : Decimal;
  account : Account
}.

(** A transaction.  [currency] is the Python value handed to the
    constructor: a currency of the book, or [None]. *)
Record Transaction : Type := mkTransaction {
  currency : option Commodity;
  description : string;
  splits : list Split;
  enter_date : Date
}.

(** What a book holds. *)
Record Ledger : Type := mkLedger {
  accounts : list Account;
  commodities : list Commodity;
  transactions : list Transaction
}.

(** An open book: the objects of its session, the contents of the file
    behind it, and the number of [book.save()] calls that completed. *)
Record Book : Type := mkBook {
  session : Ledger;
  file : Ledger;
  saves : nat
}.

(** Modelled from the spec: [split.is_debit] is a property of the piecash
    library, whose code is not among the sources.  The listing takes the
    split of negative value as the source and the other as the
    destination, and [last_n_transactions] takes the flagged split as the
    destination: the flag is that of a positive value, as piecash has
    it. *)
Definition is_debit (s : Split) : bool := is_positive (value s).

(** [account.children] *)
Definition children (b : Book) (a : Account) : list Account :=
  filter (fun c => (parent c =? fullname a)%string) (accounts (session b)).

(** [book.currencies] *)
Definition currencies (b : Book) : list Commodity :=
  filter (fun c => (namespace c =? "CURRENCY")%string)
    (commodities (session b)).

(** The session after a new transaction, or a new account, joined it. *)
Definition with_transaction (b : Book) (t : Transaction) : Book :=
  mkBook
    (mkLedger (accounts (session b)) (commodities (session b))
       (transactions (session b) ++ [t]))
    (file b) (saves b).

Definition with_account (b : Book) (a : Account) : Book :=
  mkBook
    (mkLedger (accounts (session b) ++ [a]) (commodities (session b))
       (transactions (session b)))
    (file b) (saves b).

(** The session after the library added a currency to it. *)
Definition with_commodity (b : Book) (c : Commodity) : Book :=
  mkBook
    (mkLedger (accounts (session b)) (commodities (session b) ++ [c])
       (transactions (session b)))
    (file b) (saves b).

(** The book after a [book.save()] that went through: the file holds what
    the session holds. *)
Definition saved (b : Book) : Book :=
  mkBook (session b) (session b) (S (saves b)).

(** The behaviour of the library that the book's contents do not fix:
    what opening a path yields; what [get] on one of the book's lists
    does when no object matches (it raises, or yields [None]); what
    [book.currencies(...)] does for a currency the book does not hold (it
    raises, or makes the currency and adds it to the session); when
    building a transaction or saving raises; the session that a failing
    save leaves behind (as it was, or rolled back); the balance of an
    account; the clock; the text of a split. *)
Class Library : Type := mkLibrary {
  open_path : string -> bool -> bool -> bool -> Ledger + exn;
  lookup_error : string -> option exn;
  missing_currency : Book -> string -> Commodity + exn;
  transaction_error : Transaction -> option exn;
  save_error : Book -> option exn;
  failed_save : Book -> Ledger;
  get_balance : Book -> Account -> Decimal;
  now : Date;
  str_split : Split -> string
}.

(** The book after a [book.save()] that raised: the file is as it was,
    the session is what the library left of it. *)
Definition unsaved {lib : Library} (b : Book) : Book :=
  mkBook (failed_save b) (file b) (saves b).

End piecash.

Import piecash.

(** ** The process: environment, open book, logger output *)

Record State : Type := mkState {
  environ : list (string * string);
  book : Book;
  log : list LogRecord
}.

(** Computations of the helper: they read and update the state and end
    with an [outcome]. *)
Definition M (A : Type) : Type := State -> outcome A * State.

Definition ret {A : Type} (a : A) : M A := fun s => (Returned a, s).

Definition bind {A B : Type} (m : M A) (k : A -> M B) : M B :=
  fun s =>
    match m s with
    | (Returned a, s') => k a s'
    | (Raised e, s') => (Raised e, s')
    | (Exited c, s') => (Exited c, s')
    end.

Definition raise {A : Type} (e : exn) : M A := fun s => (Raised e, s).

(** [sys.exit(code)] *)
Definition sys_exit {A : Type} (code : Z) : M A := fun s => (Exited code, s).

(** [try: m  except ...: handler]; [handler e] is [None] when no [except]
    clause matches [e]. *)
Definition try_except {A : Type} (m : M A) (handler : exn -> option (M A))
  : M A :=
  fun s =>
    match m s with
    | (Raised e, s') =>
        match handler e with
        | Some h => h s'
        | None => (Raised e, s')
        end
    | r => r
    end.

Declare Scope helper_scope.
Delimit Scope helper_scope with helper.

Notation "x <- m ;; k" := (bind m (fun x => k))
  (at level 100, m at next level, right associativity) : helper_scope.
Notation "m ;; k" := (bind m (fun _ => k))
  (at level 100, right associativity) : helper_scope.

Local Open Scope helper_scope.

Definition with_book (s : State) (b : Book) : State :=
  mkState (environ s) b (log s).

Definition logged (s : State) (lvl : level) (msg : string) : State :=
  mkState (environ s) (book s) (log s ++ [(lvl, msg)]).

Definition get_book : M Book := fun s => (Returned (book s), s).

Definition put_book (b : Book) : M unit :=
  fun s => (Returned tt, with_book s b).

(** [logger.debug(msg)], [logger.info(msg)], ... *)
Definition logger (lvl : level) (msg : string) : M unit :=
  fun s => (Returned tt, logged s lvl msg).

(** [for x in l: acc = body acc x] *)
Fixpoint for_each {A S : Type} (l : list A) (body : S -> A -> M S) (acc : S)
  : M S :=
  match l with
  | [] => ret acc
  | x :: r => acc' <- body acc x ;; for_each r body acc'
  end.

(** [enumerate(l)], from index [i] *)
Fixpoint enumerate {A : Type} (i : Z) (l : list A) : list (Z * A) :=
  match l with
  | [] => []
  | x :: r => (i, x) :: enumerate (i + 1) r
  end.

(** ** What the web layer exchanges *)

(** The data of a submitted transaction form. *)
Record Submission : Type := mkSubmission {
  debit_data : string;
  credit_data : string;
  amount_data : Decimal;
  description_data : string
}.

(** What a route answers: a rendered template with the choices of its
    form, or a redirect with the message flashed and its category. *)
Inductive Response : Type :=
| Rendered (template : string) (choices : list string)
| Redirected (endpoint : string) (flashed : string) (category : string).

(** ** gnucash_helper.py *)

Section Helper.

Context {lib : Library}.

(** [l(...)] and [l.get(...)] on one of the book's lists: the first
    object that satisfies [p]; without one, what the library does then.
    The result is a Python value, [None] when the library does not
    raise. *)
Definition callable_get {A : Type} (p : A -> bool) (what : string)
  (l : list A) : M (option A) :=
  match find p l with
  | Some x => ret (Some x)
  | None =>
      match lookup_error what with
      | Some e => raise e
      | None => ret None
      end
  end.

(** [env[name]] *)
Definition env_item (name : string) : M string :=
  fun s =>
    match dict_get name (environ s) with
    | Some v => (Returned v, s)
    | None => (Raised (KeyError (repr name)), s)
    end.

(** [get_env_var(name)]; the result [None] is Python's [None]. *)
Definition get_env_var (name : string) : M (option string) :=
  try_except
    (env_var <- env_item name ;;
     ret (Some env_var))
    (fun e =>
       match e with
       | KeyError ke =>
           Some (logger CRITICAL
                   ("Could not get env. var. " ++ dq ++ ke ++ dq
                      ++ ". Make sure it is set") ;;
                 ret None)
       | _ => None
       end).

Definition get_book_name_from_env : M string :=
  try_except
    (env_item "GNUCASH_FILE")
    (fun e =>
       match e with
       | KeyError ke =>
           Some (logger CRITICAL
                   ("Could not get GnuCash book name from env. var. "
                      ++ ke ++ ".") ;;
                 sys_exit 1)
       | _ => None
       end).

Definition get_gnucash_dir : M string :=
  try_except
    (env_item "GNUCASH_DIR")
    (fun e =>
       match e with
       | KeyError ke =>
           Some (logger CRITICAL
                   ("Error, could not get GnuCash directory " ++ ke
                      ++ " from env var") ;;
                 logger CRITICAL "Make sure to set $GNUCASH_DIR" ;;
                 sys_exit 1)
       | _ => None
       end).

(** [piecash.open_book(...)] *)
Definition piecash_open_book (book_name : string)
  (readonly open_if_lock do_backup : bool) : M Book :=
  match open_path book_name readonly open_if_lock do_backup with
  | inl ledger => ret (mkBook ledger ledger 0)
  | inr e => raise e
  end.

(** [open_book(book_name, readonly, open_if_lock, do_backup)]; the book it
    returns becomes the book of the state. *)
Definition open_book (book_name : string)
  (readonly open_if_lock do_backup : bool) : M unit :=
  try_except
    (b <- piecash_open_book book_name readonly open_if_lock do_backup ;;
     put_book b)
    (fun e =>
       match e with
       | GnucashException gce =>
           Some (logger CRITICAL
                   ("Error while attempting to open GnuCash book " ++ dq
                      ++ book_name ++ dq) ;;
                 logger CRITICAL gce ;;
                 sys_exit 1)
       | _ => None
       end).

(** [book.close()]: nothing of the model depends on the handle being
    released. *)
Definition book_close : M unit := ret tt.

(** [book.currencies(mnemonic=...)]: the first currency of the book with
    that mnemonic; for a currency that the book does not hold, the one
    that the library makes and adds to the session, unless it raises. *)
Definition book_currencies (mnemonic_ : string) : M (option Commodity) :=
  b <- get_book ;;
  match
    find (fun c => (mnemonic c =? mnemonic_)%string) (currencies b)
  with
  | Some c => ret (Some c)
  | None =>
      match missing_currency b mnemonic_ with
      | inl c => put_book (with_commodity b c) ;; ret (Some c)
      | inr e => raise e
      end
  end.

(** [book.save()] *)
Definition book_save : M unit :=
  b <- get_book ;;
  match save_error b with
  | Some e => put_book (unsaved b) ;; raise e
  | None => put_book (saved b)
  end.

Definition get_account (account_name : string) (book : Book)
  : option Account :=
  let search_name := lower account_name in
  find (fun account => (lower (fullname account) =? search_name)%string)
    (accounts (session book)).

(** [piecash.Account(name=..., type=..., parent=..., commodity=...)]: the
    new account joins the session of its parent's book. *)
Definition new_Account (name type : string) (parent : Account)
  (commodity : Commodity) : M Account :=
  b <- get_book ;;
  let a :=
    mkAccount name (fullname parent ++ ":" ++ name) type (fullname parent)
      commodity in
  put_book (with_account b a) ;;
  ret a.

Definition add_account (new_acct_name parent : string) : M bool :=
  b <- get_book ;;
  parent_account <-
    callable_get (fun a => (fullname a =? parent)%string)
      ("fullname=" ++ parent) (accounts (session b)) ;;
  match parent_account with
  | Some parent_account =>
      let child_accts :=
        map (fun child => lower (name child)) (children b parent_account) in
      if existsb (String.eqb (lower new_acct_name)) child_accts
      then
        logger WARNING
          ("The " ++ new_acct_name
             ++ " account already exists as a child of your " ++ parent
             ++ " account. Skipping") ;;
        ret false
      else
        USD <-
          callable_get (fun c => (mnemonic c =? "USD")%string)
            "mnemonic=USD" (commodities (session b)) ;;
        match USD with
        | Some USD =>
            new_account <-
              new_Account new_acct_name "EXPENSE" parent_account USD ;;
            try_except
              book_save
              (fun e =>
                 match e with
                 | GnucashException gce =>
                     Some (logger CRITICAL
                             "Encounted GnuCash Error while saving book:" ;;
                           logger CRITICAL gce ;;
                           sys_exit 1)
                 | _ => None
                 end) ;;
            logger INFO
              ("Successfully saved book with new account " ++ dq
                 ++ new_acct_name ++ dq ++ ", child of parent account "
                 ++ dq ++ parent ++ dq) ;;
            ret true
        | None =>
            logger ERROR
              ("There was no parent account named " ++ dq ++ parent ++ dq
                 ++ " or no commodity named " ++ dq ++ "USD" ++ dq) ;;
            ret false
        end
  | None =>
      logger ERROR
        ("There was no parent account named " ++ dq ++ parent ++ dq) ;;
      ret false
  end.

(** The [dict] that [last_n_transactions] builds for a transaction with
    the two splits [s0] and [s1]. *)
Definition transaction_dict (trans : Transaction) (s0 s1 : Split) : dict :=
  let date := str_date (enter_date trans) in
  let '(source_acct, dest_acct) :=
    if is_debit s0 then (s1, s0) else (s0, s1) in
  let descrip := description trans in
  let amount := value dest_acct in
  let amount := if is_signed amount then neg amount else amount in
  let amount := float_of_decimal amount in
  let t := [] in
  let t := dict_set "date" date t in
  let t := dict_set "source" (fullname (account source_acct)) t in
  let t := dict_set "dest" (fullname (account dest_acct)) t in
  let t := dict_set "description" descrip t in
  let t := dict_set "amount" ("$" ++ format_float_2f amount) t in
  t.

(** One turn of the loop of [last_n_transactions]. *)
Definition last_n_step (last_n : list dict) (it : Z * Transaction)
  : M (list dict) :=
  let '(ind, trans) := it in
  let splits := splits trans in
  logger DEBUG
    ("Txn #" ++ str_int ind ++ ": the length of `splits` is: "
       ++ str_int (Z.of_nat (List.length splits))) ;;
  logger DEBUG "The splits are:" ;;
  for_each splits (fun _ split => logger DEBUG (str_split split)) tt ;;
  match splits with
  | [s0; s1] => ret (last_n ++ [transaction_dict trans s0 s1])
  | _ =>
      logger ERROR
        ("The length of splits was not 2 for transaction #" ++ str_int ind
           ++ ". Skipping.") ;;
      ret last_n
  end.

Definition last_n_transactions (n : Z) : M (list dict) :=
  b <- get_book ;;
  let last_n := [] in
  let transactions := rev (slice_from (- n) (transactions (session b))) in
  logger DEBUG
    ("`n` was set to " ++ str_int n ++ " for getting last transactions") ;;
  logger DEBUG
    ("There are " ++ str_int (Z.of_nat (List.length transactions))
       ++ " transactions in the list") ;;
  for_each (enumerate 0 transactions) last_n_step last_n.

(** [Transaction(currency=..., description=..., splits=[...])]: the new
    transaction joins the session of the book of its accounts. *)
Definition new_Transaction (currency : option Commodity)
  (description : string)
  (splits : list Split) : M Transaction :=
  let t := mkTransaction currency description splits now in
  match transaction_error t with
  | Some e => raise e
  | None =>
      b <- get_book ;;
      put_book (with_transaction b t) ;;
      ret t
  end.

(** [add_transaction(book, description, amount, debit_acct, credit_acct)];
    [Some true] and [Some false] are Python's [True] and [False], [None]
    is the [None] of a call that falls off the end of the function. *)
Definition add_transaction (description : string) (amount : Decimal)
  (debit_acct credit_acct : string) : M (option bool) :=
  try_except
    (b <- get_book ;;
     let credit := get_account credit_acct b in
     let debit := get_account debit_acct b in
     match credit, debit with
     | Some credit, Some debit =>
         usd <- book_currencies "USD" ;;
         logger INFO "Creating a new transaction in the GnuCash book." ;;
         transaction <-
           new_Transaction usd description
             [mkSplit amount credit; mkSplit (neg amount) debit] ;;
         book_save ;;
         logger INFO "Successfully saved transaction" ;;
         ret (Some true)
     | Some _, None =>
         logger ERROR
           ("The debit account " ++ debit_acct ++ " was not found. Skipping.") ;;
         ret (Some false)
     | None, Some _ =>
         logger ERROR
           ("The credit account " ++ credit_acct
              ++ " was not found. Skipping.") ;;
         ret (Some false)
     | None, None => ret None
     end)
    (fun e =>
       match e with
       | GnucashException gce =>
           Some (logger ERROR "Failed to add the transaction" ;;
                 logger ERROR gce ;;
                 ret (Some false))
       | ValueError ve =>
           Some (logger ERROR "Failed to add the transaction with ValueError:" ;;
                 logger ERROR ve ;;
                 ret (Some false))
       | _ => None
       end).

(** ** app.py *)

(** [int(x)] where [x] is a text or [None]. *)
Definition int (x : option string) : M Z :=
  match x with
  | None =>
      raise (TypeError
               "int() argument must be a string, a bytes-like object or a real number, not 'NoneType'")
  | Some s =>
      match int_of_text s with
      | Some z => ret z
      | None =>
          raise (ValueError
                   ("invalid literal for int() with base 10: " ++ repr s))
      end
  end.

(** The [/transactions] route; it returns what it hands to the template:
    the listing and [n].  [int] returns a number or raises, so the test
    [num_transactions is None] of the source is never true and the call
    with the default [n] is never made. *)
Definition transactions_route (path_to_book : string) : M (list dict * Z) :=
  logger INFO "Attempting to open book inside transactions route" ;;
  open_book path_to_book false true false ;;
  v <- get_env_var "NUM_TRANSACTIONS" ;;
  num_transactions <- int v ;;
  transactions <- last_n_transactions num_transactions ;;
  book_close ;;
  ret (transactions, num_transactions).

(** The row of the balances page for one account. *)
Definition balance_dict (b : Book) (acc : Account) : dict :=
  let account := [] in
  let fn := replace ":" " ➔ " (fullname acc) in
  let bal := get_balance b acc in
  let bal := ("$" ++ format_decimal_grouped_2f bal)%string in
  let account := dict_set "fullname" fn account in
  let account := dict_set "balance" bal account in
  account.

(** [x['fullname']] as the sort key; every row of the page has it. *)
Definition fullname_key (x : dict) : string :=
  match dict_get "fullname" x with
  | Some v => v
  | None => ""
  end.

(** The [/balances] route; it returns the rows it hands to the template. *)
Definition balances (path_to_book : string) : M (list dict) :=
  logger INFO "Attempting to open book inside of balances route." ;;
  open_book path_to_book true true false ;;
  b <- get_book ;;
  accounts <-
    for_each (accounts (session b))
      (fun accounts acc => ret (accounts ++ [balance_dict b acc])) [] ;;
  let accounts := sorted fullname_key accounts in
  book_close ;;
  ret accounts.

(** [list_accounts(book)]: [book] is the path of the book. *)
Definition list_accounts (book_path : string) : M (list string) :=
  open_book book_path true true false ;;
  b <- get_book ;;
  let accounts :=
    sorted (fun x => x) (map fullname (accounts (session b))) in
  book_close ;;
  ret accounts.

(** [TransactionForm.new()]; it returns the choices of the two account
    selectors. *)
Definition TransactionForm_new (path_to_book : string) : M (list string) :=
  logger INFO "Attempting to read GnuCash book to create TransactionForm." ;;
  accounts <- list_accounts path_to_book ;;
  ret accounts.

(** The [/] route.  [posted choices] is the data of the form when the
    request is a POST that validates against [choices]
    ([form.validate_on_submit()]), and [None] otherwise. *)
Definition index (path_to_book : string)
  (posted : list string -> option Submission) : M Response :=
  logger INFO "Creating new form inside of the index route" ;;
  choices <- TransactionForm_new path_to_book ;;
  match posted choices with
  | Some form =>
      logger INFO "Attempting to open book in index route" ;;
      open_book path_to_book false true false ;;
      let descrip := description_data form in
      let amount := amount_data form in
      let credit := credit_data form in
      let debit := debit_data form in
      added_txn <- add_transaction descrip amount debit credit ;;
      book_close ;;
      let shown := format_float_2f (float_of_decimal amount) in
      match added_txn with
      | Some true =>
          ret (Redirected "index"
                 ("Transaction for " ++ shown ++ " saved to GnuCash file.")
                 "success")
      | _ =>
          ret (Redirected "index"
                 ("Transaction for " ++ shown
                    ++ " was not saved to GnuCash file.")
                 "danger")
      end
  | None => ret (Rendered "index.html" choices)
  end.

(** The start of [app.py], run once at import: it returns
    [path_to_book].  [path_exists] is [os.path.exists]. *)
Definition startup (path_exists : string -> bool) : M string :=
  book_name <- get_book_name_from_env ;;
  gnucash_dir <- get_gnucash_dir ;;
  let path_to_book := (gnucash_dir ++ "/" ++ book_name)%string in
  let book_exists := path_exists path_to_book in
  logger INFO
    ("At the global start, the book's existence is: "
       ++ (if book_exists then "True" else "False")) ;;
  ret path_to_book.

End Helper.

(** ** Shapes of the rendered amounts *)

(** Digits in groups of three separated by commas, read from the right:
    the leading group has one to three digits. *)
Fixpoint grouped_digits_rev (l : list ascii) : bool :=
  match l with
  | [] => false
  | [a] => is_digit a
  | [a; b] => is_digit a && is_digit b
  | [a; b; c] => is_digit a && is_digit b && is_digit c
  | a :: b :: c :: sep :: rest =>
      is_digit a && is_digit b && is_digit c && Ascii.eqb sep ","
        && grouped_digits_rev rest
  end.

(** [<digits with thousands separators>.<2 digits>] *)
Definition grouped_amount (body : list ascii) : bool :=
  match rev body with
  | d2 :: d1 :: dot :: int_rev =>
      is_digit d2 && is_digit d1 && Ascii.eqb dot "." && grouped_digits_rev int_rev
  | _ => false
  end.

(** The pattern [$<digits with thousands separators>.<2 digits>]. *)
Definition money_pattern (s : string) : bool :=
  match list_ascii_of_string s with
  | "$"%char :: body => grouped_amount body
  | _ => false
  end.

(** The same pattern, or the same with a minus sign after the dollar
    sign. *)
Definition signed_money_pattern (s : string) : bool :=
  money_pattern s
  || match list_ascii_of_string s with
     | "$"%char :: "-"%char :: body => grouped_amount body
     | _ => false
     end.

(** Ascending order of text keys, by code point. *)
Definition key_le {A : Type} (key : A -> string) (x y : A) : Prop :=
  (key x <=? key y)%string = true.

(** The order of the balances page: the [fullname] texts of its rows. *)
Definition by_fullname_key : dict -> dict -> Prop := key_le fullname_key.

(** The order of the accounts' own full names. *)
Definition by_account_name : Account -> Account -> Prop := key_le fullname.

(** The name under which an account is shown on the balances page. *)
Definition shown_name (a : Account) : string :=
  replace ":" " ➔ " (fullname a).

(** A listing as the specification words it: the accounts of the book in
    ascending order of their full names, every balance of the shape
    [$<digits with thousands separators>.<2 digits>]. *)
Definition listing_by_account_name {lib : Library} (b : Book)
  (rows : list dict) : Prop :=
  exists accts,
    Permutation accts (accounts (session b))
    /\ Sorted by_account_name accts
    /\ rows = map (balance_dict b) accts.

Definition balances_unsigned (rows : list dict) : Prop :=
  Forall (fun row =>
            exists v, dict_get "balance" row = Some v
                      /\ money_pattern v = true) rows.

(** A transaction as [last_n_transactions] wants it. *)
Definition two_splits (t : Transaction) : bool :=
  (List.length (splits t) =? 2)%nat.

(** The listing of one well-formed transaction; [None] for the others. *)
Definition listed (t : Transaction) : option dict :=
  match splits t with
  | [s0; s1] => Some (transaction_dict t s0 s1)
  | _ => None
  end.

(** The listing of a sequence of transactions: the well-formed ones, in
    their order. *)
Definition listing (l : list Transaction) : list dict :=
  flat_map (fun t => match listed t with Some d => [d] | None => [] end) l.

(** The transactions that [last_n_transactions] walks through:
    [reversed(book.transactions[-n:])]. *)
Definition selected (n : Z) (b : Book) : list Transaction :=
  rev (slice_from (- n) (transactions (session b))).

(** Two states that differ in the logger's output only. *)
Definition same_world (s s' : State) : Prop :=
  book s' = book s /\ environ s' = environ s.

(** The last [n] elements of a list, for a natural number [n]. *)
Definition last_n {A : Type} (n : nat) (l : list A) : list A :=
  skipn (List.length l - n) l.

(** The sum of the values of the splits of a transaction. *)
Definition splits_total (t : Transaction) : Decimal :=
  fold_left add (map value (splits t)) (mkDecimal 0 0).

(** ** Vocabulary of the statements about the writer *)

(** [book.currencies(mnemonic='USD')], when it finds the currency. *)
Definition usd_currency (b : Book) : option Commodity :=
  find (fun c => (mnemonic c =? "USD")%string) (currencies b).

(** The transaction that [add_transaction] builds. *)
Definition built {lib : Library} (description : string) (amount : Decimal)
  (debit credit : Account) (usd : option Commodity) : Transaction :=
  mkTransaction usd description
    [mkSplit amount credit; mkSplit (neg amount) debit] now.

(** The absolute value of [d] is [cents] hundredths. *)
Definition whole_cents (d : Decimal) (cents : Z) : Prop :=
  numerator d * 100 = cents * denominator d.

(** What the [except] clauses of [add_transaction] make of an exception
    raised in state [s]. *)
Definition add_transaction_except (e : exn) (s : State)
  : outcome (option bool) * State :=
  match e with
  | GnucashException gce =>
      (Returned (Some false),
       logged (logged s ERROR "Failed to add the transaction") ERROR gce)
  | ValueError ve =>
      (Returned (Some false),
       logged (logged s ERROR "Failed to add the transaction with ValueError:")
         ERROR ve)
  | _ => (Raised e, s)
  end.

(** [book.accounts.get(fullname=parent)] and
    [book.commodities.get(mnemonic='USD')], when they find their object. *)
Definition account_named (parent : string) (b : Book) : option Account :=
  find (fun a => (fullname a =? parent)%string) (accounts (session b)).

Definition usd_commodity (b : Book) : option Commodity :=
  find (fun c => (mnemonic c =? "USD")%string) (commodities (session b)).

(** [new_acct_name.lower() in child_accts] *)
Definition child_exists (new_acct_name : string) (parent_account : Account)
  (b : Book) : bool :=
  existsb (String.eqb (lower new_acct_name))
    (map (fun child => lower (name child)) (children b parent_account)).

(** The account that [add_account] creates. *)
Definition created (new_acct_name : string) (parent_account : Account)
  (usd : Commodity) : Account :=
  mkAccount new_acct_name (fullname parent_account ++ ":" ++ new_acct_name)
    "EXPENSE" (fullname parent_account) usd.

(** ** Vocabulary of the statements about lookups *)

(** An account whose full name is [account_name] up to letter case. *)
Definition matches (account_name : string) (a : Account) : bool :=
  (lower (fullname a) =? lower account_name)%string.

(** Ascending order of texts. *)
Definition text_le : string -> string -> Prop := key_le (fun x => x).

(** ** A sample book and library *)

Module Sample.

Definition USD : Commodity := mkCommodity "CURRENCY" "USD".

Definition assets : Account := mkAccount "Assets" "Assets" "ASSET" "" USD.
Definition cash : Account :=
  mkAccount "Cash" "Assets:Cash" "ASSET" "Assets" USD.
Definition expenses : Account :=
  mkAccount "Expenses" "Expenses" "EXPENSE" "" USD.
Definition food : Account :=
  mkAccount "Food" "Expenses:Food" "EXPENSE" "Expenses" USD.
Definition old : Account :=
  mkAccount "Expenses-Old" "Expenses-Old" "EXPENSE" "" USD.
Definition lower_cash : Account :=
  mkAccount "cash" "assets:cash" "ASSET" "assets" USD.

Definition lunch : Transaction :=
  mkTransaction (Some USD) "Lunch"
    [mkSplit (mkDecimal 1250 (-2)) food; mkSplit (mkDecimal (-1250) (-2)) cash]
    (mkDate 2021 1 1).

Definition dinner : Transaction :=
  mkTransaction (Some USD) "Dinner"
    [mkSplit (mkDecimal (-3000) (-2)) cash; mkSplit (mkDecimal 3000 (-2)) food]
    (mkDate 2021 1 2).

(** A transaction split three ways, which the listing skips. *)
Definition shared : Transaction :=
  mkTransaction (Some USD) "Shared"
    [mkSplit (mkDecimal 1000 (-2)) food; mkSplit (mkDecimal (-400) (-2)) cash;
     mkSplit (mkDecimal (-600) (-2)) assets]
    (mkDate 2021 1 3).

(** A transaction whose first split is zero and whose second is
    negative, and one of 70368744177664.01, an amount that a float cannot
    hold to the cent. *)
Definition lopsided : Transaction :=
  mkTransaction (Some USD) "Lopsided"
    [mkSplit (mkDecimal 0 (-2)) food; mkSplit (mkDecimal (-500) (-2)) cash]
    (mkDate 2021 1 5).

Definition fortune : Transaction :=
  mkTransaction (Some USD) "Fortune"
    [mkSplit (mkDecimal 7036874417766401 (-2)) food;
     mkSplit (mkDecimal (-7036874417766401) (-2)) cash]
    (mkDate 2021 1 6).

Definition ledger (accts : list Account) (txns : list Transaction) : Ledger :=
  mkLedger accts [USD] txns.

Definition odd : Ledger := mkLedger [cash; food] [USD] [lopsided; fortune].

(** Books: without transactions; with three of them, one malformed; with
    one; with a second cash account whose name differs by case only. *)
Definition fresh : Ledger := ledger [assets; cash; expenses; food] [].
Definition three : Ledger := ledger [cash; food; old] [lunch; shared; dinner].
Definition one : Ledger := ledger [cash; food; old] [lunch].
Definition shadowed : Ledger := ledger [lower_cash; cash; food] [].

Definition opened (l : Ledger) : Book := mkBook l l 0.

Definition state (l : Ledger) (env : list (string * string)) : State :=
  mkState env (opened l) [].

(** The natural sign of an account type. *)
Definition natural_sign (type : string) : Z :=
  if existsb (String.eqb type)
       ["INCOME"; "LIABILITY"; "EQUITY"; "CREDIT"; "PAYABLE"]
  then -1 else 1.

(** The balance of an account without children: the sum of its splits
    under the natural sign of its type. *)
Definition own_balance (b : Book) (a : Account) : Decimal :=
  let vs :=
    flat_map
      (fun t =>
         map value
           (filter (fun sp => (fullname (account sp) =? fullname a)%string)
              (splits t)))
      (transactions (session b)) in
  let total := fold_left add vs (mkDecimal 0 0) in
  mkDecimal (natural_sign (type a) * coefficient total) (exponent total).

(** GnuCash stores an amount as a 64-bit numerator over a 64-bit
    denominator. *)
Definition representable (d : Decimal) : bool :=
  (numerator d <? 2 ^ 63) && (denominator d <? 2 ^ 63).

Definition numeric_error (t : Transaction) : option exn :=
  if forallb (fun sp => representable (value sp)) (splits t) then None
  else Some (ValueError "The amount cannot be represented in GnuCash.").

(** A library over one file: [l] is what the path [book.gnucash] holds and
    [failure] is what [book.save()] raises, if anything.  A currency that
    the book does not hold is made on demand, and a failing save leaves
    the session as it was. *)
Definition library (l : Ledger) (failure : option exn) : Library :=
  mkLibrary
    (fun path _ _ _ =>
       if (path =? "book.gnucash")%string then inl l
       else inr (GnucashException "Database does not exist"))
    (fun what => Some (KeyError ("Could not find object with " ++ what)))
    (fun _ mnemonic_ => inl (mkCommodity "CURRENCY" mnemonic_))
    numeric_error
    (fun _ => failure)
    session
    own_balance
    (mkDate 2021 1 4)
    (fun sp => fullname (account sp)).

(** A library whose saves go through, and one whose saves fail. *)
Definition reliable (l : Ledger) : Library := library l None.

Definition unreliable (l : Ledger) : Library :=
  library l (Some (GnucashException "database is locked")).

(** The rows of [dinner] and [lunch] in a listing. *)
Definition dinner_row : dict :=
  [("date", "2021-01-02"); ("source", "Assets:Cash");
   ("dest", "Expenses:Food"); ("description", "Dinner");
   ("amount", "$30.00")].

Definition lunch_row : dict :=
  [("date", "2021-01-01"); ("source", "Assets:Cash");
   ("dest", "Expenses:Food"); ("description", "Lunch");
   ("amount", "$12.50")].

(** The amounts 12.50 and -5.00. *)
Definition twelve_fifty : Decimal := mkDecimal 1250 (-2).
Definition minus_five : Decimal := mkDecimal (-500) (-2).

(** An environment that names the book but not the number of
    transactions to show. *)
Definition partial_env : list (string * string) :=
  [("GNUCASH_DIR", "."); ("GNUCASH_FILE", "book.gnucash")].

End Sample.

(** * Properties *)

(** ** The monad and the loops *)

Lemma bind_returned {A B : Type} (m : M A) (k : A -> M B) s a s' :
  m s = (Returned a, s') -> bind m k s = k a s'.
Proof. intros H. unfold bind. rewrite H. reflexivity. Qed.

Lemma bind_raised {A B : Type} (m : M A) (k : A -> M B) s e s' :
  m s = (Raised e, s') -> bind m k s = (Raised e, s').
Proof. intros H. unfold bind. rewrite H. reflexivity. Qed.

Lemma bind_exited {A B : Type} (m : M A) (k : A -> M B) s c s' :
  m s = (Exited c, s') -> bind m k s = (Exited c, s').
Proof. intros H. unfold bind. rewrite H. reflexivity. Qed.

Lemma bind_logger {B : Type} lvl msg (k : unit -> M B) s :
  bind (logger lvl msg) k s = k tt (logged s lvl msg).
Proof. reflexivity. Qed.

Lemma bind_get_book {B : Type} (k : Book -> M B) s :
  bind get_book k s = k (book s) s.
Proof. reflexivity. Qed.

Lemma bind_put_book {B : Type} b (k : unit -> M B) s :
  bind (put_book b) k s = k tt (with_book s b).
Proof. reflexivity. Qed.

Lemma bind_ret {A B : Type} (a : A) (k : A -> M B) s :
  bind (ret a) k s = k a s.
Proof. reflexivity. Qed.

Lemma bind_assoc {A B C : Type} (m : M A) (f : A -> M B) (g : B -> M C) s :
  bind (bind m f) g s = bind m (fun x => bind (f x) g) s.
Proof. unfold bind. destruct (m s) as [[a|e|c] s']; reflexivity. Qed.

Lemma try_returned {A : Type} (m : M A) h s a s' :
  m s = (Returned a, s') -> try_except m h s = (Returned a, s').
Proof. intros H. unfold try_except. rewrite H. reflexivity. Qed.

Lemma try_raised {A : Type} (m : M A) h s e s' :
  m s = (Raised e, s') ->
  try_except m h s
  = match h e with Some k => k s' | None => (Raised e, s') end.
Proof. intros H. unfold try_except. rewrite H. reflexivity. Qed.

Lemma try_exited {A : Type} (m : M A) h s c s' :
  m s = (Exited c, s') -> try_except m h s = (Exited c, s').
Proof. intros H. unfold try_except. rewrite H. reflexivity. Qed.

Lemma same_world_refl s : same_world s s.
Proof. split; reflexivity. Qed.

Lemma same_world_trans s1 s2 s3 :
  same_world s1 s2 -> same_world s2 s3 -> same_world s1 s3.
Proof. intros [H1 H2] [H3 H4]. split; congruence. Qed.

Lemma same_world_logged s lvl msg : same_world s (logged s lvl msg).
Proof. split; reflexivity. Qed.

Lemma same_world_logged_r s s' lvl msg :
  same_world s s' -> same_world s (logged s' lvl msg).
Proof. intros [H1 H2]. split; simpl; assumption. Qed.

Lemma same_world_logged_l s s' lvl msg :
  same_world (logged s lvl msg) s' -> same_world s s'.
Proof. intros [H1 H2]. split; simpl in *; assumption. Qed.

Create HintDb helper.
#[local] Hint Resolve same_world_refl same_world_logged same_world_logged_r
  same_world_logged_l : helper.

Section Listing.

Context {lib : Library}.

(** Writing the splits to the debug log changes nothing else. *)
Lemma log_splits_run (l : list Split) : forall s,
  exists s',
    for_each l (fun _ split => logger DEBUG (str_split split)) tt s
    = (Returned tt, s')
    /\ same_world s s'.
Proof.
  induction l as [|sp l IH]; intros s.
  - exists s. split; [reflexivity|auto with helper].
  - cbn [for_each]. rewrite bind_logger.
    destruct (IH (logged s DEBUG (str_split sp))) as (s' & Hrun & Hw).
    exists s'. split; [exact Hrun|eauto with helper].
Qed.

(** One turn of the loop appends the listing of its transaction. *)
Lemma last_n_step_run acc i t s :
  exists s',
    last_n_step acc (i, t) s
    = (Returned (acc ++ match listed t with Some d => [d] | None => [] end), s')
    /\ same_world s s'.
Proof.
  unfold last_n_step, listed.
  rewrite !bind_logger.
  match goal with
  | |- context [bind (for_each (splits t) ?f tt) _ ?s0] =>
      destruct (log_splits_run (splits t) s0) as (s1 & Hrun & Hw)
  end.
  rewrite (bind_returned _ _ _ _ _ Hrun).
  assert (Hs : same_world s s1) by eauto with helper.
  destruct (splits t) as [|s0 [|s1' [|s2 r]]];
    try (rewrite bind_logger, app_nil_r; eexists; split;
         [reflexivity|auto with helper]).
  eexists; split; [reflexivity|assumption].
Qed.

(** The loop of [last_n_transactions] computes the listing. *)
Lemma last_n_loop_run (l : list Transaction) : forall i acc s,
  exists s',
    for_each (enumerate i l) last_n_step acc s
    = (Returned (acc ++ listing l), s')
    /\ same_world s s'.
Proof.
  induction l as [|t l IH]; intros i acc s.
  - exists s. cbn. rewrite app_nil_r. auto with helper.
  - cbn [enumerate for_each].
    destruct (last_n_step_run acc i t s) as (s1 & Hstep & Hw1).
    rewrite (bind_returned _ _ _ _ _ Hstep).
    destruct (IH (i + 1) (acc ++ match listed t with
                                 | Some d => [d] | None => [] end) s1)
      as (s2 & Hloop & Hw2).
    exists s2. rewrite Hloop. cbn [listing flat_map]. rewrite <- app_assoc.
    split; [reflexivity|]. eapply same_world_trans; eassumption.
Qed.

(** [last_n_transactions] always returns, with the listing of the
    transactions it selected, and only writes to the log. *)
Lemma last_n_transactions_run n s :
  exists s',
    last_n_transactions n s = (Returned (listing (selected n (book s))), s')
    /\ same_world s s'.
Proof.
  unfold last_n_transactions.
  rewrite bind_get_book, !bind_logger.
  match goal with
  | |- context [for_each (enumerate 0 ?l) last_n_step [] ?s0] =>
      destruct (last_n_loop_run l 0 [] s0) as (s1 & Hrun & Hw)
  end.
  exists s1. split; [exact Hrun|eauto with helper].
Qed.

End Listing.

(** ** Lists, slices and listings *)

Lemma In_skipn {A : Type} (k : nat) (l : list A) x :
  In x (skipn k l) -> In x l.
Proof.
  intros H. rewrite <- (firstn_skipn k l). apply in_or_app. right. exact H.
Qed.

Lemma In_slice_from {A : Type} (start : Z) (l : list A) x :
  In x (slice_from start l) -> In x l.
Proof. unfold slice_from. apply In_skipn. Qed.

(** For a positive [n], the slice [l[-n:]] is the last [n] elements. *)
Lemma slice_from_last_n {A : Type} (n : Z) (l : list A) :
  0 < n -> slice_from (- n) l = last_n (Z.to_nat n) l.
Proof.
  intros Hn. unfold slice_from, last_n.
  destruct (Z.ltb_spec (- n) 0) as [_|H]; [|lia].
  f_equal. lia.
Qed.

(** For [n = 0], the slice [l[-0:]] is the whole list. *)
Lemma slice_from_zero {A : Type} (l : list A) : slice_from (- 0) l = l.
Proof.
  unfold slice_from. cbn [Z.opp Z.ltb Z.compare].
  rewrite Z.min_l by lia. reflexivity.
Qed.

Lemma last_n_length {A : Type} (n : nat) (l : list A) :
  List.length (last_n n l) = Nat.min n (List.length l).
Proof. unfold last_n. rewrite length_skipn. lia. Qed.

Lemma listed_two_splits t :
  two_splits t = false <-> listed t = None.
Proof.
  unfold two_splits, listed.
  destruct (splits t) as [|s0 [|s1 [|s2 r]]]; cbn; split; congruence.
Qed.

(** The listing holds one row for each transaction with two splits, in
    order, and nothing else. *)
Lemma listing_filter l :
  map Some (listing l) = map listed (filter two_splits l).
Proof.
  induction l as [|t l IH]; [reflexivity|].
  cbn [listing flat_map filter].
  destruct (two_splits t) eqn:Ht.
  - destruct (listed t) as [d|] eqn:Hl.
    + cbn [app map]. rewrite Hl. f_equal. exact IH.
    + apply listed_two_splits in Hl. congruence.
  - apply listed_two_splits in Ht. rewrite Ht. exact IH.
Qed.

Lemma listing_length l :
  List.length (listing l) = List.length (filter two_splits l).
Proof.
  rewrite <- (length_map Some), listing_filter, length_map. reflexivity.
Qed.

Lemma filter_length_le {A : Type} (p : A -> bool) l :
  (List.length (filter p l) <= List.length l)%nat.
Proof.
  induction l as [|x l IH]; cbn; [lia|]. destruct (p x); cbn; lia.
Qed.

(** A filter that shortens a list rejected one of its elements. *)
Lemma filter_length_lt {A : Type} (p : A -> bool) l :
  (List.length (filter p l) < List.length l)%nat ->
  exists x, In x l /\ p x = false.
Proof.
  induction l as [|x l IH]; cbn; [lia|].
  destruct (p x) eqn:Hp; cbn; intros H.
  - destruct IH as (y & Hy & Hpy); [lia|]. exists y. auto.
  - exists x. auto.
Qed.

Lemma In_listing row l :
  In row (listing l) -> exists t, In t l /\ listed t = Some row.
Proof.
  unfold listing. rewrite in_flat_map. intros (t & Ht & Hrow).
  exists t. split; [exact Ht|].
  destruct (listed t) as [d|]; [|contradiction].
  destruct Hrow as [->|[]]. reflexivity.
Qed.

Lemma abs_by_sign d : (if is_signed d then neg d else d) = dec_abs d.
Proof.
  destruct d as [c e]. unfold is_signed, neg, dec_abs. cbn.
  destruct (Z.ltb_spec c 0); f_equal; lia.
Qed.

Lemma not_negative_and_positive d :
  is_negative d = true -> is_positive d = true -> False.
Proof. unfold is_negative, is_positive. lia. Qed.

(** ** Amounts through binary floating point *)

(** A quotient within half a unit of an integer rounds to it. *)
Lemma round_half_even_near q delta d :
  0 < d -> 2 * Z.abs delta < d -> 0 <= q * d + delta ->
  round_half_even (q * d + delta) d = q.
Proof.
  intros Hd Hdelta Hn. unfold round_half_even.
  destruct (Z.le_gt_cases 0 delta) as [Hpos|Hneg].
  - assert (Hq : (q * d + delta) / d = q)
      by (symmetry; apply (Z.div_unique _ _ _ delta); lia).
    assert (Hr : (q * d + delta) mod d = delta)
      by (symmetry; apply (Z.mod_unique _ _ q); lia).
    rewrite Hq, Hr.
    destruct (Z.ltb_spec (2 * delta) d); lia.
  - assert (Hq : (q * d + delta) / d = q - 1)
      by (symmetry; apply (Z.div_unique _ _ _ (d + delta)); lia).
    assert (Hr : (q * d + delta) mod d = d + delta)
      by (symmetry; apply (Z.mod_unique _ _ (q - 1)); lia).
    rewrite Hq, Hr.
    destruct (Z.ltb_spec (2 * (d + delta)) d); [lia|].
    destruct (Z.ltb_spec d (2 * (d + delta))); lia.
Qed.

(** Rounding moves a quotient by half a unit at most. *)
Lemma round_half_even_error n d :
  0 < d -> 0 <= n -> 2 * Z.abs (round_half_even n d * d - n) <= d.
Proof.
  intros Hd Hn. unfold round_half_even.
  pose proof (Z.div_mod n d ltac:(lia)) as Hdm.
  pose proof (Z.mod_pos_bound n d Hd) as Hb.
  destruct (Z.ltb_spec (2 * (n mod d)) d).
  - nia.
  - destruct (Z.ltb_spec d (2 * (n mod d))).
    + nia.
    + destruct (Z.even (n / d)); nia.
Qed.

(** The float nearest to an amount of whole cents below 100 * 2^46: its
    exponent is -7 at most. *)
Lemma float_of_cents c :
  0 < c < 100 * 2 ^ 46 ->
  exists k,
    7 <= k
    /\ float_of_decimal (mkDecimal c (-2))
       = Finite false (round_half_even (c * 2 ^ k) 100) (- k).
Proof.
  intros Hc. unfold float_of_decimal, is_signed.
  replace (numerator (mkDecimal c (-2))) with c
    by (unfold numerator; cbn; lia).
  change (denominator (mkDecimal c (-2))) with 100.
  cbn [coefficient].
  destruct (Z.eqb_spec c 0) as [|_]; [lia|].
  destruct (Z.ltb_spec c 0) as [|_]; [lia|].
  change (Z.log2 100) with 6.
  assert (HL : 0 <= Z.log2 c < 53).
  { split; [apply Z.log2_nonneg|]. apply Z.log2_lt_pow2; lia. }
  set (e0 := Z.log2 c - 6 - 52).
  set (e1 := if _ <=? _ then e0 else e0 - 1).
  assert (He1 : -60 <= e1 <= -7).
  { subst e1. destruct (Z.eq_dec (Z.log2 c) 52) as [E|E].
    - assert (He0 : e0 = -6) by (subst e0; lia). rewrite He0.
      change (2 ^ Z.max (-6) 0) with 1. change (2 ^ Z.max (- -6) 0) with 64.
      destruct (Z.leb_spec (2 ^ 52 * 100 * 1) (c * 64)); lia.
    - assert (He0 : -58 <= e0 <= -7) by (subst e0; lia).
      destruct (_ <=? _); lia. }
  clearbody e1. clear e0.
  rewrite (Z.max_l e1 (-1074)) by lia.
  exists (- e1). split; [lia|].
  rewrite (Z.max_l (- e1) 0), (Z.max_r e1 0) by lia.
  rewrite Z.opp_involutive.
  change (2 ^ 0) with 1. rewrite Z.mul_1_r.
  destruct (Z.ltb_spec 971 e1); [lia|].
  destruct (Z.eqb_spec e1 971); [lia|]. reflexivity.
Qed.

(** An amount of whole cents below 100 * 2^46 survives the conversion to
    float and back to two decimals: the text shows the amount itself. *)
Lemma format_float_cents_exact c :
  0 <= c < 100 * 2 ^ 46 ->
  format_float_2f (float_of_decimal (mkDecimal c (-2))) = fixed2 false c.
Proof.
  intros Hc. destruct (Z.eq_dec c 0) as [->|Hne]; [reflexivity|].
  destruct (float_of_cents c) as (k & Hk & ->); [lia|].
  unfold format_float_2f.
  rewrite (Z.max_r (- k) 0), (Z.max_l (- - k) 0) by lia.
  rewrite Z.opp_involutive. change (2 ^ 0) with 1. rewrite Z.mul_1_r.
  set (m := round_half_even (c * 2 ^ k) 100).
  assert (Hpow : 128 <= 2 ^ k).
  { change 128 with (2 ^ 7). apply Z.pow_le_mono_r; lia. }
  pose proof (round_half_even_error (c * 2 ^ k) 100 ltac:(lia) ltac:(nia))
    as Herr. fold m in Herr.
  replace (m * 100) with (c * 2 ^ k + (m * 100 - c * 2 ^ k)) by ring.
  rewrite round_half_even_near; [reflexivity|lia|lia|].
  assert (0 <= c * 2 ^ k) by nia. lia.
Qed.

Lemma denominator_pos d : 0 < denominator d.
Proof. unfold denominator. apply Z.pow_pos_nonneg; lia. Qed.

Lemma numerator_nonneg d : 0 <= numerator d.
Proof.
  unfold numerator. apply Z.mul_nonneg_nonneg; [apply Z.abs_nonneg|].
  apply Z.pow_nonneg. lia.
Qed.

Lemma numerator_dec_abs d : numerator (dec_abs d) = numerator d.
Proof. unfold numerator, dec_abs. cbn. rewrite Z.abs_idemp. reflexivity. Qed.

Lemma is_signed_dec_abs d : is_signed (dec_abs d) = false.
Proof.
  unfold is_signed, dec_abs. cbn. apply Z.ltb_ge. apply Z.abs_nonneg.
Qed.

(** The float nearest to a positive quotient [n / den] below 2^46 that
    is at least a hundredth: its exponent lies between -60 and -7. *)
Lemma float_exponent_small n den :
  0 < den -> den <= n * 100 -> n < 2 ^ 46 * den ->
  let e0 := Z.log2 n - Z.log2 den - 52 in
  let e1 :=
    if 2 ^ 52 * den * 2 ^ Z.max e0 0 <=? n * 2 ^ Z.max (- e0) 0
    then e0 else e0 - 1 in
  -60 <= e1 <= -7.
Proof.
  intros Hden Hlow Hhigh e0 e1.
  assert (Hn : 0 < n) by lia.
  destruct (Z.log2_spec n Hn) as [Hn1 Hn2].
  destruct (Z.log2_spec den Hden) as [Hd1 Hd2].
  pose proof (Z.log2_nonneg n) as HLn.
  pose proof (Z.log2_nonneg den) as HLd.
  assert (Hup : Z.log2 n - Z.log2 den <= 46).
  { destruct (Z.le_gt_cases (Z.log2 n - Z.log2 den) 46) as [H|H]; [exact H|].
    exfalso.
    assert (Hp : 2 ^ (Z.succ (Z.log2 den) + 46) <= 2 ^ Z.log2 n)
      by (apply Z.pow_le_mono_r; lia).
    rewrite Z.pow_add_r in Hp by lia. nia. }
  assert (Hdown : -7 <= Z.log2 n - Z.log2 den).
  { destruct (Z.le_gt_cases (-7) (Z.log2 n - Z.log2 den)) as [H|H];
      [exact H|].
    exfalso.
    assert (Hp : 2 ^ (Z.succ (Z.log2 n) + 7) <= 2 ^ Z.log2 den)
      by (apply Z.pow_le_mono_r; lia).
    rewrite Z.pow_add_r in Hp by lia.
    change (2 ^ 7) with 128 in Hp. nia. }
  subst e1. destruct (Z.eq_dec e0 (-6)) as [E|E].
  - rewrite E. change (2 ^ Z.max (-6) 0) with 1.
    change (2 ^ Z.max (- -6) 0) with 64.
    change (2 ^ 52) with 4503599627370496.
    change (2 ^ 46) with 70368744177664 in Hhigh.
    destruct (Z.leb_spec (4503599627370496 * den * 1) (n * 64)); lia.
  - assert (-59 <= e0 <= -7) by (subst e0; lia).
    destruct (_ <=? _); lia.
Qed.

(** The float nearest to an amount of [c] hundredths, [c] positive and
    below 100 * 2^46, whatever the exponent its [Decimal] is written
    with. *)
Lemma float_of_whole_cents d c :
  whole_cents d c -> 0 < c < 100 * 2 ^ 46 ->
  exists k,
    7 <= k
    /\ float_of_decimal (dec_abs d)
       = Finite false
           (round_half_even (numerator d * 2 ^ k) (denominator d)) (- k).
Proof.
  unfold whole_cents. intros Hw Hc.
  pose proof (denominator_pos d) as Hden.
  pose proof (numerator_nonneg d) as Hnum.
  unfold float_of_decimal.
  rewrite numerator_dec_abs, is_signed_dec_abs.
  change (denominator (dec_abs d)) with (denominator d).
  set (n := numerator d) in *. set (den := denominator d) in *.
  assert (Hlow : den <= n * 100) by nia.
  assert (Hhigh : n < 2 ^ 46 * den) by nia.
  destruct (Z.eqb_spec n 0) as [E|_]; [nia|].
  pose proof (float_exponent_small n den Hden Hlow Hhigh) as He1.
  cbv zeta in He1.
  set (e1 := if _ <=? _ then _ else _) in *.
  clearbody e1.
  rewrite (Z.max_l e1 (-1074)) by lia.
  exists (- e1). split; [lia|].
  rewrite (Z.max_l (- e1) 0), (Z.max_r e1 0) by lia.
  rewrite Z.opp_involutive.
  change (2 ^ 0) with 1. rewrite Z.mul_1_r.
  destruct (Z.ltb_spec 971 e1); [lia|].
  destruct (Z.eqb_spec e1 971); [lia|]. reflexivity.
Qed.

(** An amount of whole cents below 100 * 2^46 is shown to the cent,
    whatever the exponent its [Decimal] is written with. *)
Lemma whole_cents_text_exact d c :
  whole_cents d c -> c < 100 * 2 ^ 46 ->
  format_float_2f (float_of_decimal (dec_abs d)) = fixed2 false c.
Proof.
  intros Hw Hc.
  pose proof (denominator_pos d) as Hden.
  pose proof (numerator_nonneg d) as Hnum.
  assert (Hc0 : 0 <= c) by (unfold whole_cents in Hw; nia).
  destruct (Z.eq_dec c 0) as [->|Hne].
  - assert (Hn0 : numerator d = 0) by (unfold whole_cents in Hw; nia).
    unfold float_of_decimal.
    rewrite numerator_dec_abs, is_signed_dec_abs, Hn0. reflexivity.
  - destruct (float_of_whole_cents d c Hw) as (k & Hk & ->); [lia|].
    unfold whole_cents in Hw.
    set (n := numerator d) in *. set (den := denominator d) in *.
    unfold format_float_2f.
    rewrite (Z.max_r (- k) 0), (Z.max_l (- - k) 0) by lia.
    rewrite Z.opp_involutive. change (2 ^ 0) with 1. rewrite Z.mul_1_r.
    set (m := round_half_even (n * 2 ^ k) den).
    assert (Hpow : 128 <= 2 ^ k).
    { change 128 with (2 ^ 7). apply Z.pow_le_mono_r; lia. }
    assert (Hnk : 0 <= n * 2 ^ k) by nia.
    pose proof (round_half_even_error (n * 2 ^ k) den Hden Hnk) as Herr.
    fold m in Herr.
    assert (Hdelta : Z.abs (m * 100 - c * 2 ^ k) <= 50).
    { assert (Heq : (m * 100 - c * 2 ^ k) * den = 100 * (m * den - n * 2 ^ k))
        by nia.
      apply Z.abs_le. nia. }
    replace (m * 100) with (c * 2 ^ k + (m * 100 - c * 2 ^ k)) by ring.
    rewrite round_half_even_near; [reflexivity|lia|lia|].
    assert (0 <= c * 2 ^ k) by nia. lia.
Qed.

(** ** The transaction reader *)

Section Reader.

Context {lib : Library}.

Lemma transaction_dict_eq t s0 s1 :
  transaction_dict t s0 s1
  = let src := if is_debit s0 then s1 else s0 in
    let dst := if is_debit s0 then s0 else s1 in
    [("date", str_date (enter_date t));
     ("source", fullname (account src));
     ("dest", fullname (account dst));
     ("description", description t);
     ("amount",
      ("$" ++ format_float_2f (float_of_decimal (dec_abs (value dst))))%string)].
Proof.
  unfold transaction_dict. rewrite <- abs_by_sign.
  destruct (is_debit s0); reflexivity.
Qed.

(** X28: for a positive [n] the listing has at most [n] rows, those of
    the last [n] transactions, most recent first; it has fewer than [n]
    only when the book is shorter than [n] or one of the last [n]
    transactions is skipped. *)
Lemma last_n_transactions_at_most_n n s :
  0 < n ->
  exists rows,
    fst (last_n_transactions n s) = Returned rows
    /\ rows
       = listing (rev (last_n (Z.to_nat n) (transactions (session (book s)))))
    /\ Z.of_nat (List.length rows) <= n
    /\ (Z.of_nat (List.length rows) < n ->
        Z.of_nat (List.length (transactions (session (book s)))) < n
        \/ exists t,
             In t (last_n (Z.to_nat n) (transactions (session (book s))))
             /\ two_splits t = false).
Proof.
  intros Hn.
  destruct (last_n_transactions_run n s) as (s' & Hrun & _).
  rewrite Hrun. unfold selected. rewrite slice_from_last_n by exact Hn.
  set (txns := transactions (session (book s))).
  eexists. split; [reflexivity|]. split; [reflexivity|].
  rewrite listing_length.
  pose proof (filter_length_le two_splits (rev (last_n (Z.to_nat n) txns)))
    as Hle.
  rewrite length_rev, last_n_length in Hle.
  split; [lia|].
  intros Hlt.
  destruct (Z.ltb_spec (Z.of_nat (List.length txns)) n) as [Hshort|Hlong];
    [left; exact Hshort|right].
  destruct (filter_length_lt two_splits (rev (last_n (Z.to_nat n) txns)))
    as (t & Ht & Hp).
  - rewrite length_rev, last_n_length. lia.
  - exists t. split; [apply in_rev; exact Ht|exact Hp].
Qed.

(** With [n = 0] the slice [book.transactions[-0:]] is the whole list:
    every well-formed transaction of the book is listed. *)
Lemma last_n_transactions_zero_all s :
  fst (last_n_transactions 0 s)
  = Returned (listing (rev (transactions (session (book s))))).
Proof.
  destruct (last_n_transactions_run 0 s) as (s' & Hrun & _).
  rewrite Hrun. unfold selected. rewrite slice_from_zero. reflexivity.
Qed.

(** C7: for every book and every [n], [last_n_transactions] returns (it
    never raises nor exits); its rows are, in order, the rows of exactly
    those selected transactions that have two splits, so a transaction
    with another number of splits is left out and the ones after it are
    still listed; only the log changes. *)
Theorem last_n_transactions_skips_malformed (n : Z) (s : State) :
  exists rows s',
    last_n_transactions n s = (Returned rows, s')
    /\ map Some rows = map listed (filter two_splits (selected n (book s)))
    /\ (forall t, In t (selected n (book s)) -> two_splits t = false ->
                  listed t = None)
    /\ same_world s s'.
Proof.
  destruct (last_n_transactions_run n s) as (s' & Hrun & Hw).
  exists (listing (selected n (book s))), s'.
  split; [exact Hrun|]. split; [apply listing_filter|].
  split; [|exact Hw].
  intros t _ Ht. apply listed_two_splits. exact Ht.
Qed.

(** C6, as the code has it: every row that [last_n_transactions] returns
    comes from a transaction of the book with two splits.  When the
    value of the first split is positive, that split is the destination
    and the second the source; otherwise the first split is the source
    and the second the destination.  So of two splits of opposite signs
    the negative one is the source and the positive one the destination.
    The amount shown is a dollar sign and the absolute value of the
    destination split, converted to a float and written with two
    decimals; for a value of whole cents below 100 * 2^46 it is the
    value itself, to the cent. *)
Theorem last_n_transactions_classifies (n : Z) (s : State)
  (rows : list dict) (row : dict) :
  fst (last_n_transactions n s) = Returned rows ->
  In row rows ->
  exists t first second src dst,
    In t (transactions (session (book s)))
    /\ splits t = [first; second]
    /\ (is_positive (value first) = true -> src = second /\ dst = first)
    /\ (is_positive (value first) = false -> src = first /\ dst = second)
    /\ dict_get "source" row = Some (fullname (account src))
    /\ dict_get "dest" row = Some (fullname (account dst))
    /\ dict_get "amount" row
       = Some ("$" ++ format_float_2f
                         (float_of_decimal (dec_abs (value dst))))%string
    /\ (forall x y,
          splits t = [x; y] \/ splits t = [y; x] ->
          is_negative (value x) = true -> is_positive (value y) = true ->
          x = src /\ y = dst)
    /\ (forall cents,
          whole_cents (value dst) cents -> cents < 100 * 2 ^ 46 ->
          dict_get "amount" row = Some ("$" ++ fixed2 false cents)%string).
Proof.
  intros Hrun Hin.
  destruct (last_n_transactions_run n s) as (s' & Hrun' & _).
  rewrite Hrun' in Hrun. cbn [fst] in Hrun.
  injection Hrun as <-.
  apply In_listing in Hin. destruct Hin as (t & Ht & Hrow).
  unfold selected in Ht. apply in_rev, In_slice_from in Ht.
  unfold listed in Hrow.
  destruct (splits t) as [|s0 [|s1 [|s2 r]]] eqn:Hsp; try discriminate.
  injection Hrow as <-. rewrite transaction_dict_eq.
  unfold is_debit. destruct (is_positive (value s0)) eqn:Hpos; cbv zeta.
  - exists t, s0, s1, s1, s0. split; [exact Ht|]. split; [exact Hsp|].
    split; [intros _; split; reflexivity|].
    split; [intros H; congruence|].
    repeat (split; [reflexivity|]). split.
    + intros x y Hxy Hx Hy. rewrite Hsp in Hxy.
      destruct Hxy as [Hxy|Hxy]; injection Hxy as <- <-.
      * exfalso. eapply not_negative_and_positive; eassumption.
      * split; reflexivity.
    + intros cents Hw Hc. cbn [dict_get String.eqb Ascii.eqb Bool.eqb].
      rewrite (whole_cents_text_exact _ _ Hw Hc). reflexivity.
  - exists t, s0, s1, s0, s1. split; [exact Ht|]. split; [exact Hsp|].
    split; [intros H; congruence|].
    split; [intros _; split; reflexivity|].
    repeat (split; [reflexivity|]). split.
    + intros x y Hxy Hx Hy. rewrite Hsp in Hxy.
      destruct Hxy as [Hxy|Hxy]; injection Hxy as <- <-.
      * split; reflexivity.
      * congruence.
    + intros cents Hw Hc. cbn [dict_get String.eqb Ascii.eqb Bool.eqb].
      rewrite (whole_cents_text_exact _ _ Hw Hc). reflexivity.
Qed.

End Reader.

(** ** The transaction writer *)

Section Writer.

Context {lib : Library}.

(** Neither account resolves: the call falls off the end of the function
    and touches nothing. *)
Lemma add_transaction_unresolved_both description amount debit_acct
  credit_acct s :
  get_account credit_acct (book s) = None ->
  get_account debit_acct (book s) = None ->
  add_transaction description amount debit_acct credit_acct s
  = (Returned None, s).
Proof.
  intros Hc Hd. unfold add_transaction.
  apply try_returned. rewrite bind_get_book, Hc, Hd. reflexivity.
Qed.

(** Only the debit account is missing. *)
Lemma add_transaction_unresolved_debit description amount debit_acct
  credit_acct s credit :
  get_account credit_acct (book s) = Some credit ->
  get_account debit_acct (book s) = None ->
  add_transaction description amount debit_acct credit_acct s
  = (Returned (Some false),
     logged s ERROR
       ("The debit account " ++ debit_acct ++ " was not found. Skipping.")).
Proof.
  intros Hc Hd. unfold add_transaction.
  apply try_returned. rewrite bind_get_book, Hc, Hd. reflexivity.
Qed.

(** Only the credit account is missing. *)
Lemma add_transaction_unresolved_credit description amount debit_acct
  credit_acct s debit :
  get_account credit_acct (book s) = None ->
  get_account debit_acct (book s) = Some debit ->
  add_transaction description amount debit_acct credit_acct s
  = (Returned (Some false),
     logged s ERROR
       ("The credit account " ++ credit_acct ++ " was not found. Skipping.")).
Proof.
  intros Hc Hd. unfold add_transaction.
  apply try_returned. rewrite bind_get_book, Hc, Hd. reflexivity.
Qed.

(** The lookup of the currency: found in the book, made by the library,
    or refused with an exception. *)
Lemma book_currencies_run s :
  book_currencies "USD" s
  = match usd_currency (book s) with
    | Some c => (Returned (Some c), s)
    | None =>
        match missing_currency (book s) "USD" with
        | inl c =>
            (Returned (Some c), with_book s (with_commodity (book s) c))
        | inr e => (Raised e, s)
        end
    end.
Proof.
  unfold book_currencies, usd_currency. rewrite bind_get_book.
  destruct (find _ (currencies (book s))) as [c|]; [reflexivity|].
  destruct (missing_currency (book s) "USD") as [c|e]; reflexivity.
Qed.

Lemma book_currencies_found s c :
  usd_currency (book s) = Some c ->
  book_currencies "USD" s = (Returned (Some c), s).
Proof. intros H. rewrite book_currencies_run, H. reflexivity. Qed.

(** The lookup returns in a state that differs from the first one by a
    currency of the session at most, or it raises in the first state. *)
Lemma book_currencies_cases s :
  (exists usd s0,
      book_currencies "USD" s = (Returned usd, s0)
      /\ accounts (session (book s0)) = accounts (session (book s))
      /\ transactions (session (book s0)) = transactions (session (book s)))
  \/ (exists e, book_currencies "USD" s = (Raised e, s)).
Proof.
  rewrite book_currencies_run.
  destruct (usd_currency (book s)) as [c|].
  - left. exists (Some c), s. repeat split; reflexivity.
  - destruct (missing_currency (book s) "USD") as [c|e].
    + left. eexists _, _. repeat split; reflexivity.
    + right. exists e. reflexivity.
Qed.

(** Both accounts resolve and the lookup of the currency raises: the
    [except] clauses decide. *)
Lemma add_transaction_no_currency description amount debit_acct
  credit_acct s credit debit e :
  get_account credit_acct (book s) = Some credit ->
  get_account debit_acct (book s) = Some debit ->
  book_currencies "USD" s = (Raised e, s) ->
  add_transaction description amount debit_acct credit_acct s
  = add_transaction_except e s.
Proof.
  intros Hc Hd Hu. unfold add_transaction.
  rewrite (try_raised _ _ s e s).
  - destruct e; reflexivity.
  - rewrite bind_get_book, Hc, Hd.
    apply bind_raised. exact Hu.
Qed.

(** Both accounts resolve and the lookup of the currency returns, in the
    state [s0]: the outcome is decided by the library alone, whatever
    the amount. *)
Lemma add_transaction_after_lookup description amount debit_acct
  credit_acct s credit debit usd s0 :
  get_account credit_acct (book s) = Some credit ->
  get_account debit_acct (book s) = Some debit ->
  book_currencies "USD" s = (Returned usd, s0) ->
  let t := built description amount debit credit usd in
  let s1 := logged s0 INFO "Creating a new transaction in the GnuCash book." in
  let b2 := with_transaction (book s0) t in
  add_transaction description amount debit_acct credit_acct s
  = match transaction_error t with
    | Some e => add_transaction_except e s1
    | None =>
        match save_error b2 with
        | Some e => add_transaction_except e (with_book s1 (unsaved b2))
        | None =>
            (Returned (Some true),
             logged (with_book s1 (saved b2)) INFO
               "Successfully saved transaction")
        end
    end.
Proof.
  intros Hc Hd Hget t s1 b2. unfold add_transaction, try_except.
  rewrite bind_get_book, Hc, Hd.
  rewrite (bind_returned _ _ _ _ _ Hget), bind_logger. fold s1.
  unfold new_Transaction. fold (built description amount debit credit usd).
  fold t.
  destruct (transaction_error t) as [e|] eqn:Ht.
  - unfold raise, bind. destruct e; reflexivity.
  - unfold book_save, bind, get_book, put_book, ret.
    replace (book s1) with (book s0) by reflexivity. fold b2.
    replace (book (with_book s1 b2)) with b2 by reflexivity.
    destruct (save_error b2) as [e|] eqn:Hs.
    + unfold raise. destruct e; reflexivity.
    + reflexivity.
Qed.

(** The same when the book holds the currency. *)
Lemma add_transaction_resolved description amount debit_acct credit_acct s
  credit debit usd :
  get_account credit_acct (book s) = Some credit ->
  get_account debit_acct (book s) = Some debit ->
  usd_currency (book s) = Some usd ->
  let t := built description amount debit credit (Some usd) in
  let s1 := logged s INFO "Creating a new transaction in the GnuCash book." in
  let b2 := with_transaction (book s) t in
  add_transaction description amount debit_acct credit_acct s
  = match transaction_error t with
    | Some e => add_transaction_except e s1
    | None =>
        match save_error b2 with
        | Some e => add_transaction_except e (with_book s1 (unsaved b2))
        | None =>
            (Returned (Some true),
             logged (with_book s1 (saved b2)) INFO
               "Successfully saved transaction")
        end
    end.
Proof.
  intros Hc Hd Hu.
  exact (add_transaction_after_lookup description amount _ _ _ _ _ _ _ Hc Hd
           (book_currencies_found _ _ Hu)).
Qed.

(** The values of [amount] and [-amount] sum to zero. *)
Lemma built_total_zero description amount debit credit usd :
  is_zero (splits_total (built description amount debit credit usd)) = true.
Proof.
  unfold splits_total, built, is_zero, add, neg. cbn.
  destruct amount as [c e]. cbn.
  replace (Z.min (Z.min 0 e) e) with (Z.min 0 e) by lia.
  rewrite Z.sub_diag, Z.pow_0_r. apply Z.eqb_eq. ring.
Qed.

(** What a successful call of [add_transaction] has done. *)
Lemma add_transaction_success (description : string)
  (amount : Decimal) (debit_acct credit_acct : string) (s : State) :
  let run := add_transaction description amount debit_acct credit_acct s in
  fst run = Returned (Some true) ->
  exists credit debit t,
    get_account credit_acct (book s) = Some credit
    /\ get_account debit_acct (book s) = Some debit
    /\ transactions (session (book (snd run)))
       = transactions (session (book s)) ++ [t]
    /\ splits t = [mkSplit amount credit; mkSplit (neg amount) debit]
    /\ List.length (splits t) = 2%nat
    /\ description = piecash.description t
    /\ is_zero (splits_total t) = true
    /\ file (book (snd run)) = session (book (snd run)).
Proof.
  intros run Hrun. subst run.
  destruct (get_account credit_acct (book s)) as [credit|] eqn:Hc;
    destruct (get_account debit_acct (book s)) as [debit|] eqn:Hd.
  - destruct (book_currencies_cases s)
      as [(usd & s0 & Hu & _ & Htx)|(e & Hu)].
    + revert Hrun.
      rewrite (add_transaction_after_lookup _ _ _ _ _ _ _ _ _ Hc Hd Hu).
      cbv zeta.
      destruct (transaction_error _) as [e|];
        [destruct e; cbn; discriminate|].
      destruct (save_error _) as [e|];
        [destruct e; cbn; discriminate|].
      intros _. exists credit, debit, (built description amount debit credit usd).
      split; [reflexivity|]. split; [reflexivity|].
      split; [cbn; rewrite Htx; reflexivity|].
      repeat (split; [reflexivity|]).
      split; [apply built_total_zero|reflexivity].
    + rewrite (add_transaction_no_currency _ _ _ _ _ _ _ _ Hc Hd Hu)
        in Hrun.
      destruct e; discriminate.
  - rewrite (add_transaction_unresolved_debit _ _ _ _ _ _ Hc Hd) in Hrun.
    discriminate.
  - rewrite (add_transaction_unresolved_credit _ _ _ _ _ _ Hc Hd) in Hrun.
    discriminate.
  - rewrite (add_transaction_unresolved_both _ _ _ _ _ Hc Hd) in Hrun.
    discriminate.
Qed.

(** C1: a call of [add_transaction] that returns [True] resolved both
    account names, appended to the book one transaction whose splits are
    exactly a split of value [amount] on the credit account followed by a
    split of value [-amount] on the debit account, whose values sum to
    zero, and saved the book. *)
Theorem add_transaction_two_balanced_splits (description : string)
  (amount : Decimal) (debit_acct credit_acct : string) (s : State) :
  let run := add_transaction description amount debit_acct credit_acct s in
  fst run = Returned (Some true) ->
  exists credit debit t,
    get_account credit_acct (book s) = Some credit
    /\ get_account debit_acct (book s) = Some debit
    /\ transactions (session (book (snd run)))
       = transactions (session (book s)) ++ [t]
    /\ splits t = [mkSplit amount credit; mkSplit (neg amount) debit]
    /\ List.length (splits t) = 2%nat
    /\ description = piecash.description t
    /\ is_zero (splits_total t) = true
    /\ file (book (snd run)) = session (book (snd run)).
Proof. exact (add_transaction_success description amount debit_acct credit_acct s). Qed.

(** When an account name does not resolve the book is left as it was:
    nothing is built, nothing is saved.  The call returns [False] when
    exactly one name is missing, and [None] when both are. *)
Lemma add_transaction_unresolved description amount debit_acct credit_acct s :
  get_account credit_acct (book s) = None
  \/ get_account debit_acct (book s) = None ->
  let run := add_transaction description amount debit_acct credit_acct s in
  same_world s (snd run)
  /\ (fst run = Returned (Some false) \/ fst run = Returned None)
  /\ (fst run = Returned None <->
      get_account credit_acct (book s) = None
      /\ get_account debit_acct (book s) = None).
Proof.
  intros H.
  destruct (get_account credit_acct (book s)) as [credit|] eqn:Hc;
    destruct (get_account debit_acct (book s)) as [debit|] eqn:Hd;
    cbv zeta.
  - destruct H; discriminate.
  - rewrite (add_transaction_unresolved_debit _ _ _ _ _ _ Hc Hd).
    split; [cbn; auto with helper|]. split; [left; reflexivity|].
    cbn. split; [discriminate|intros [? _]; discriminate].
  - rewrite (add_transaction_unresolved_credit _ _ _ _ _ _ Hc Hd).
    split; [cbn; auto with helper|]. split; [left; reflexivity|].
    cbn. split; [discriminate|intros [_ ?]; discriminate].
  - rewrite (add_transaction_unresolved_both _ _ _ _ _ Hc Hd).
    split; [cbn; auto with helper|]. split; [right; reflexivity|].
    cbn. split; auto.
Qed.

(** C8, as the code has it: [add_transaction] makes no check of its own
    on the amount.  With both accounts resolved and the USD currency in
    the book, whatever the amount: if the library raises nothing the call
    returns [True] and the file holds the new transaction; if the library
    refuses the value with a [ValueError] the call returns [False] and
    the book is as before. *)
Theorem add_transaction_amount_unchecked (description : string)
  (amount : Decimal) (debit_acct credit_acct : string) (s : State)
  (credit debit : Account) (usd : Commodity) :
  get_account credit_acct (book s) = Some credit ->
  get_account debit_acct (book s) = Some debit ->
  usd_currency (book s) = Some usd ->
  let t := built description amount debit credit (Some usd) in
  let run := add_transaction description amount debit_acct credit_acct s in
  (transaction_error t = None ->
   save_error (with_transaction (book s) t) = None ->
   fst run = Returned (Some true)
   /\ transactions (file (book (snd run)))
      = transactions (session (book s)) ++ [t])
  /\ (forall ve, transaction_error t = Some (ValueError ve) ->
      fst run = Returned (Some false) /\ book (snd run) = book s).
Proof.
  intros Hc Hd Hu t run. subst run.
  rewrite (add_transaction_resolved _ _ _ _ _ _ _ _ Hc Hd Hu).
  cbv zeta. fold t. split.
  - intros Ht Hs. rewrite Ht, Hs. split; reflexivity.
  - intros ve Ht. rewrite Ht. split; reflexivity.
Qed.

(** [add_account] up to its [book.save()]. *)
Lemma add_account_reaches_save new_acct_name parent s parent_account usd :
  account_named parent (book s) = Some parent_account ->
  child_exists new_acct_name parent_account (book s) = false ->
  usd_commodity (book s) = Some usd ->
  let b2 := with_account (book s) (created new_acct_name parent_account usd) in
  fst (add_account new_acct_name parent s)
  = match save_error b2 with
    | Some (GnucashException _) => Exited 1
    | Some e => Raised e
    | None => Returned true
    end.
Proof.
  intros Hp Hdup Hu b2.
  unfold add_account, callable_get.
  unfold account_named in Hp. unfold usd_commodity in Hu.
  unfold child_exists in Hdup.
  rewrite bind_get_book, Hp. rewrite bind_ret, Hdup.
  rewrite Hu, bind_ret.
  unfold new_Account. fold (created new_acct_name parent_account usd).
  unfold try_except, book_save, bind, get_book, put_book, ret.
  replace (book (with_book s (with_account (book s)
             (created new_acct_name parent_account usd)))) with b2
    by reflexivity.
  destruct (save_error b2) as [e|]; [|reflexivity].
  unfold raise. destruct e; reflexivity.
Qed.

(** C10: when [add_account] reaches [book.save()] and the save raises a
    [GnucashException], the process exits with code 1; when
    [add_transaction] reaches its [book.save()] and the save raises a
    [GnucashException], the call returns [False]. *)
Theorem save_error_exits_add_account_only (gce : string) (s : State) :
  (forall new_acct_name parent parent_account usd,
      account_named parent (book s) = Some parent_account ->
      child_exists new_acct_name parent_account (book s) = false ->
      usd_commodity (book s) = Some usd ->
      save_error
        (with_account (book s) (created new_acct_name parent_account usd))
      = Some (GnucashException gce) ->
      fst (add_account new_acct_name parent s) = Exited 1)
  /\ (forall description amount debit_acct credit_acct credit debit usd,
         get_account credit_acct (book s) = Some credit ->
         get_account debit_acct (book s) = Some debit ->
         usd_currency (book s) = Some usd ->
         let t := built description amount debit credit (Some usd) in
         transaction_error t = None ->
         save_error (with_transaction (book s) t)
         = Some (GnucashException gce) ->
         fst (add_transaction description amount debit_acct credit_acct s)
         = Returned (Some false)).
Proof.
  split.
  - intros new_acct_name parent parent_account usd Hp Hdup Hu Hs.
    rewrite (add_account_reaches_save _ _ _ _ _ Hp Hdup Hu).
    cbv zeta. rewrite Hs. reflexivity.
  - intros description amount debit_acct credit_acct credit debit usd
      Hc Hd Hu t Ht Hs.
    rewrite (add_transaction_resolved _ _ _ _ _ _ _ _ Hc Hd Hu).
    cbv zeta. fold t. rewrite Ht, Hs. reflexivity.
Qed.

End Writer.

(** ** Configuration *)

(** C9, as the code has it: a missing ledger file name or ledger
    directory ends the process with exit code 1 after a critical log
    record; a missing number of transactions is logged at critical
    severity and read as [None], and the process goes on. *)
Theorem missing_configuration (s : State) :
  (dict_get "GNUCASH_FILE" (environ s) = None ->
   get_book_name_from_env s
   = (Exited 1,
      logged s CRITICAL
        "Could not get GnuCash book name from env. var. 'GNUCASH_FILE'."))
  /\ (dict_get "GNUCASH_DIR" (environ s) = None ->
      get_gnucash_dir s
      = (Exited 1,
         logged
           (logged s CRITICAL
              "Error, could not get GnuCash directory 'GNUCASH_DIR' from env var")
           CRITICAL "Make sure to set $GNUCASH_DIR"))
  /\ (dict_get "NUM_TRANSACTIONS" (environ s) = None ->
      get_env_var "NUM_TRANSACTIONS" s
      = (Returned None,
         logged s CRITICAL
           ("Could not get env. var. " ++ dq ++ "'NUM_TRANSACTIONS'" ++ dq
              ++ ". Make sure it is set"))).
Proof.
  repeat split; intros H.
  - unfold get_book_name_from_env, try_except, env_item. rewrite H.
    reflexivity.
  - unfold get_gnucash_dir, try_except, env_item. rewrite H. reflexivity.
  - unfold get_env_var, try_except, env_item, bind. rewrite H. reflexivity.
Qed.

(** X27: a value that is set is returned as it is by each of the three
    readers of the environment, and nothing is logged. *)
Lemma present_configuration (s : State) (v : string) :
  (dict_get "GNUCASH_FILE" (environ s) = Some v ->
   get_book_name_from_env s = (Returned v, s))
  /\ (dict_get "GNUCASH_DIR" (environ s) = Some v ->
      get_gnucash_dir s = (Returned v, s))
  /\ (dict_get "NUM_TRANSACTIONS" (environ s) = Some v ->
      get_env_var "NUM_TRANSACTIONS" s = (Returned (Some v), s)).
Proof.
  repeat split; intros H.
  - unfold get_book_name_from_env, try_except, env_item. rewrite H.
    reflexivity.
  - unfold get_gnucash_dir, try_except, env_item. rewrite H. reflexivity.
  - unfold get_env_var, try_except, env_item, bind. rewrite H. reflexivity.
Qed.

(** ** Writing, then reading *)

Lemma last_n_one_snoc {A : Type} (l : list A) (x : A) :
  last_n 1 (l ++ [x]) = [x].
Proof.
  unfold last_n. rewrite length_app. cbn [List.length].
  replace (List.length l + 1 - 1)%nat with (List.length l + 0)%nat by lia.
  rewrite skipn_app, skipn_all2 by lia.
  replace (List.length l + 0 - List.length l)%nat with 0%nat by lia.
  reflexivity.
Qed.

Section RoundTrip.

Context {lib : Library}.

(** C4, as the code has it: in a book where the names [Assets:Cash] and
    [Expenses:Food] resolve to the accounts of exactly these full names,
    when [add_transaction(book, "Lunch", 12.50, "Assets:Cash",
    "Expenses:Food")] returns [True], [last_n_transactions(book, 1)]
    returns one row, with source [Assets:Cash], destination
    [Expenses:Food], amount [$12.50] and description [Lunch]. *)
Theorem lunch_round_trip (s : State) (cash food : Account) :
  get_account "Assets:Cash" (book s) = Some cash ->
  fullname cash = "Assets:Cash" ->
  get_account "Expenses:Food" (book s) = Some food ->
  fullname food = "Expenses:Food" ->
  let run :=
    add_transaction "Lunch" (mkDecimal 1250 (-2)) "Assets:Cash"
      "Expenses:Food" s in
  fst run = Returned (Some true) ->
  exists row,
    fst (last_n_transactions 1 (snd run)) = Returned [row]
    /\ dict_get "source" row = Some "Assets:Cash"
    /\ dict_get "dest" row = Some "Expenses:Food"
    /\ dict_get "amount" row = Some "$12.50"
    /\ dict_get "description" row = Some "Lunch".
Proof.
  intros Hcash Hcn Hfood Hfn run Hrun.
  destruct (add_transaction_success _ _ _ _ _ Hrun)
    as (credit & debit & t & Hc & Hd & Htx & Hsp & _ & Hdesc & _).
  fold run in Htx.
  rewrite Hfood in Hc. injection Hc as <-.
  rewrite Hcash in Hd. injection Hd as <-.
  destruct (last_n_transactions_run 1 (snd run)) as (s' & Hlist & _).
  rewrite Hlist. unfold selected.
  rewrite slice_from_last_n by lia. rewrite Htx.
  change (Z.to_nat 1) with 1%nat. rewrite last_n_one_snoc.
  cbn [rev app listing flat_map]. unfold listed. rewrite Hsp.
  rewrite transaction_dict_eq.
  eexists. split; [reflexivity|].
  cbn [fst].
  change (is_debit (mkSplit (mkDecimal 1250 (-2)) food)) with true.
  cbv zeta iota. cbn [account value]. rewrite <- Hdesc, Hcn, Hfn.
  repeat split; vm_compute; reflexivity.
Qed.

End RoundTrip.

(** ** Rendering of amounts *)

Lemma string_of_uint_digits (u : Decimal.uint) :
  forallb is_digit (list_ascii_of_string (NilEmpty.string_of_uint u)) = true.
Proof. induction u; cbn; auto. Qed.

Lemma digits_all n : forallb is_digit (digits n) = true.
Proof. apply string_of_uint_digits. Qed.

Lemma digits_nonempty n : digits n <> [].
Proof.
  unfold digits.
  assert (H : N.to_uint (Z.to_N n) <> Decimal.Nil).
  { destruct (Z.to_N n) as [|p]; cbn; [discriminate|].
    apply DecimalPos.Unsigned.to_uint_nonnil. }
  destruct (N.to_uint (Z.to_N n)); cbn; congruence.
Qed.

(** Grouping digits by three gives groups of three after a first group of
    one to three. *)
Lemma group_thousands_rev_grouped (k : nat) : forall l,
  (List.length l <= k)%nat -> l <> [] -> forallb is_digit l = true ->
  grouped_digits_rev (group_thousands_rev l) = true.
Proof.
  induction k as [|k IH]; intros l Hlen Hne Hd.
  - destruct l; [congruence|cbn in Hlen; lia].
  - destruct l as [|a [|b [|c [|d r]]]]; [congruence| | | |].
    + cbn in Hd |- *. rewrite andb_true_r in Hd. exact Hd.
    + cbn in Hd |- *. rewrite andb_true_r in Hd. exact Hd.
    + cbn in Hd |- *. rewrite andb_true_r in Hd.
      rewrite <- andb_assoc. exact Hd.
    + change (group_thousands_rev (a :: b :: c :: d :: r))
        with (a :: b :: c :: ","%char :: group_thousands_rev (d :: r)).
      change (grouped_digits_rev
                (a :: b :: c :: ","%char :: group_thousands_rev (d :: r)))
        with (is_digit a && is_digit b && is_digit c && true
              && grouped_digits_rev (group_thousands_rev (d :: r))).
      apply andb_prop in Hd. destruct Hd as [Ha Hd].
      apply andb_prop in Hd. destruct Hd as [Hb Hd].
      apply andb_prop in Hd. destruct Hd as [Hc Hd].
      rewrite Ha, Hb, Hc. cbn [andb].
      apply IH; [cbn in Hlen |- *; lia|discriminate|exact Hd].
Qed.

Lemma forallb_rev {A : Type} (p : A -> bool) l :
  forallb p (rev l) = forallb p l.
Proof.
  induction l as [|x l IH]; [reflexivity|].
  cbn. rewrite forallb_app, IH. cbn. rewrite andb_true_r. apply andb_comm.
Qed.

Lemma group_thousands_grouped ds :
  ds <> [] -> forallb is_digit ds = true ->
  grouped_digits_rev (rev (group_thousands ds)) = true.
Proof.
  intros Hne Hd. unfold group_thousands. rewrite rev_involutive.
  apply (group_thousands_rev_grouped (List.length (rev ds))); [lia| |].
  - intros H. apply (f_equal (@rev ascii)) in H.
    rewrite rev_involutive in H. exact (Hne H).
  - rewrite forallb_rev. exact Hd.
Qed.

(** The hundredths are written with two digits. *)
Lemma two_digits_nat (m : nat) :
  (m < 100)%nat ->
  match zero_pad 2 (digits (Z.of_nat m)) with
  | [a; b] => is_digit a && is_digit b
  | _ => false
  end = true.
Proof.
  intros H.
  do 100 (destruct m as [|m]; [vm_compute; reflexivity|]). lia.
Qed.

Lemma two_digits (m : Z) :
  0 <= m < 100 ->
  exists a b,
    zero_pad 2 (digits m) = [a; b] /\ is_digit a = true /\ is_digit b = true.
Proof.
  intros H. pose proof (two_digits_nat (Z.to_nat m)) as Hn.
  rewrite Z2Nat.id in Hn by lia.
  destruct (zero_pad 2 (digits m)) as [|a [|b [|c r]]];
    try (exfalso; apply Bool.diff_false_true, Hn; lia).
  exists a, b. apply andb_prop in Hn; [|lia]. tauto.
Qed.

(** An amount in hundredths, grouped, has the shape
    [<digits with thousands separators>.<2 digits>]. *)
Lemma fixed2_grouped_amount cents :
  grouped_amount (list_ascii_of_string (fixed2 true cents)) = true.
Proof.
  unfold fixed2. rewrite list_ascii_of_string_of_list_ascii.
  destruct (two_digits (cents mod 100)) as (a & b & Hab & Ha & Hb).
  { apply Z.mod_pos_bound. lia. }
  rewrite Hab. unfold grouped_amount.
  rewrite rev_app_distr. cbn [rev app].
  rewrite Ha, Hb. cbn [andb Ascii.eqb Bool.eqb].
  apply group_thousands_grouped; [apply digits_nonempty|apply digits_all].
Qed.

(** Every balance of the balances page is a dollar sign, an optional
    minus sign, grouped digits, a point and two digits. *)
Lemma balance_text_pattern d :
  signed_money_pattern ("$" ++ format_decimal_grouped_2f d) = true.
Proof.
  unfold signed_money_pattern, money_pattern, format_decimal_grouped_2f.
  destruct (is_signed d); cbn [append list_ascii_of_string].
  - rewrite fixed2_grouped_amount. apply orb_true_r.
  - rewrite fixed2_grouped_amount. reflexivity.
Qed.

(** ** Sorting *)

Section Sorting.

Context {A : Type} (key : A -> string).

Lemma insert_sorted_perm x l : Permutation (insert_sorted key x l) (x :: l).
Proof.
  induction l as [|y l IH]; cbn; [reflexivity|].
  destruct (key x <=? key y)%string; [reflexivity|].
  rewrite IH. apply perm_swap.
Qed.

Lemma sorted_perm l : Permutation (sorted key l) l.
Proof.
  induction l as [|x l IH]; cbn; [reflexivity|].
  rewrite insert_sorted_perm. apply perm_skip. exact IH.
Qed.

Lemma insert_sorted_hd x y l :
  key_le key y x -> HdRel (key_le key) y l -> HdRel (key_le key) y (insert_sorted key x l).
Proof.
  intros Hyx Hhd. destruct l as [|z l]; cbn.
  - constructor. exact Hyx.
  - destruct (key x <=? key z)%string; constructor; [exact Hyx|].
    inversion Hhd; assumption.
Qed.

Lemma insert_sorted_Sorted x l :
  Sorted (key_le key) l -> Sorted (key_le key) (insert_sorted key x l).
Proof.
  induction 1 as [|y l Hs IH Hhd]; cbn.
  - repeat constructor.
  - destruct (key x <=? key y)%string eqn:Hxy.
    + constructor; [constructor; assumption|constructor; exact Hxy].
    + constructor; [exact IH|].
      apply insert_sorted_hd; [|exact Hhd].
      unfold key_le. destruct (String.leb_total (key x) (key y)); congruence.
Qed.

Lemma sorted_Sorted l : Sorted (key_le key) (sorted key l).
Proof.
  induction l as [|x l IH]; cbn; [constructor|].
  apply insert_sorted_Sorted. exact IH.
Qed.

End Sorting.

(** ** The balances page *)

Section Balances.

Context {lib : Library}.

Lemma collect_rows_run {A B : Type} (f : A -> B) (l : list A) :
  forall acc s,
    for_each l (fun acc a => ret (acc ++ [f a])) acc s
    = (Returned (acc ++ map f l), s).
Proof.
  induction l as [|a l IH]; intros acc s; cbn [for_each map].
  - rewrite app_nil_r. reflexivity.
  - rewrite bind_ret, IH, <- app_assoc. reflexivity.
Qed.

(** [open_book], by what opening the path yields. *)
Lemma open_book_run path readonly open_if_lock do_backup s :
  open_book path readonly open_if_lock do_backup s
  = match open_path path readonly open_if_lock do_backup with
    | inl l => (Returned tt, with_book s (mkBook l l 0))
    | inr (GnucashException gce) =>
        (Exited 1,
         logged
           (logged s CRITICAL
              ("Error while attempting to open GnuCash book " ++ dq ++ path
                 ++ dq))
           CRITICAL gce)
    | inr e => (Raised e, s)
    end.
Proof.
  unfold open_book, piecash_open_book, try_except.
  destruct (open_path path readonly open_if_lock do_backup) as [l|e].
  - reflexivity.
  - unfold bind, raise. destruct e; reflexivity.
Qed.

(** What the balances route returns, by what opening the path yields. *)
Lemma balances_run path s :
  fst (balances path s)
  = match open_path path true true false with
    | inl l =>
        Returned
          (sorted fullname_key
             (map (balance_dict (mkBook l l 0)) (accounts l)))
    | inr (GnucashException _) => Exited 1
    | inr e => Raised e
    end.
Proof.
  unfold balances. rewrite bind_logger.
  set (s1 := logged s INFO _).
  pose proof (open_book_run path true true false s1) as Hopen.
  destruct (open_path path true true false) as [l|e].
  - rewrite (bind_returned _ _ _ _ _ Hopen), bind_get_book.
    erewrite bind_returned by apply collect_rows_run.
    reflexivity.
  - destruct e;
      first [rewrite (bind_raised _ _ _ _ _ Hopen)
            |rewrite (bind_exited _ _ _ _ _ Hopen)];
      reflexivity.
Qed.

Lemma fullname_key_balance_dict b a :
  fullname_key (balance_dict b a) = shown_name a.
Proof. reflexivity. Qed.

Lemma balance_of_balance_dict b a :
  dict_get "balance" (balance_dict b a)
  = Some ("$" ++ format_decimal_grouped_2f (get_balance b a))%string.
Proof. reflexivity. Qed.

(** C5, as the code has it: when the balances route returns, its rows
    are the rows of the accounts of the book, in ascending order of the
    text under [fullname], which is the account's full name with [:]
    shown as an arrow; and every balance is a dollar sign, an optional
    minus sign, digits with thousands separators, a point and two
    digits. *)
Theorem balances_sorted_signed (path : string) (s : State)
  (rows : list dict) :
  fst (balances path s) = Returned rows ->
  Sorted by_fullname_key rows
  /\ Forall (fun row =>
               exists v, dict_get "balance" row = Some v
                         /\ signed_money_pattern v = true) rows
  /\ exists l,
       open_path path true true false = inl l
       /\ Permutation rows (map (balance_dict (mkBook l l 0)) (accounts l))
       /\ Forall (fun row =>
                    exists a, In a (accounts l)
                              /\ dict_get "fullname" row = Some (shown_name a))
            rows.
Proof.
  rewrite balances_run.
  destruct (open_path path true true false) as [l|e];
    [|destruct e; discriminate].
  intros H. injection H as <-.
  set (b := mkBook l l 0).
  assert (Hperm : Permutation (sorted fullname_key (map (balance_dict b) (accounts l)))
                    (map (balance_dict b) (accounts l)))
    by apply sorted_perm.
  split; [apply (sorted_Sorted fullname_key)|].
  split.
  - apply Forall_forall. intros row Hin.
    apply (Permutation_in _ Hperm) in Hin.
    apply in_map_iff in Hin. destruct Hin as (a & <- & _).
    eexists. split; [apply balance_of_balance_dict|apply balance_text_pattern].
  - exists l. split; [reflexivity|]. split; [exact Hperm|].
    apply Forall_forall. intros row Hin.
    apply (Permutation_in _ Hperm) in Hin.
    apply in_map_iff in Hin. destruct Hin as (a & <- & Ha).
    exists a. split; [exact Ha|reflexivity].
Qed.

End Balances.

(** ** Worked runs on the sample books *)

Import Sample.

Example lower_mixed : lower "Assets:Cash" = "assets:cash".
Proof. reflexivity. Qed.

Example shown_name_cash : shown_name cash = "Assets ➔ Cash".
Proof. reflexivity. Qed.

Example fixed2_grouped : fixed2 true 123456789 = "1,234,567.89".
Proof. reflexivity. Qed.

Example format_negative_balance :
  format_decimal_grouped_2f (mkDecimal (-1234567) (-2)) = "-12,345.67".
Proof. reflexivity. Qed.

(** 0.1 is not a binary fraction: the nearest float is
    7205759403792794 / 2^56. *)
Example float_of_one_tenth :
  float_of_decimal (mkDecimal 1 (-1)) = Finite false 7205759403792794 (-56).
Proof. vm_compute. reflexivity. Qed.

(** Beyond two places the float decides: 2.675 is shown as 2.67. *)
Example format_float_below_half :
  format_float_2f (float_of_decimal (mkDecimal 2675 (-3))) = "2.67".
Proof. vm_compute. reflexivity. Qed.

Example int_of_text_underscore : int_of_text " -1_000 " = Some (-1000).
Proof. vm_compute. reflexivity. Qed.

Example slice_from_examples :
  slice_from (- 2) [1; 2; 3] = [2; 3]
  /\ slice_from (- 5) [1; 2; 3] = [1; 2; 3]
  /\ slice_from (- 0) [1; 2; 3] = [1; 2; 3].
Proof. repeat split; reflexivity. Qed.

Lemma add_transaction_two_balanced_splits_witness :
  exists credit debit t,
    get_account "Expenses:Food" (book (state fresh [])) = Some credit
    /\ get_account "Assets:Cash" (book (state fresh [])) = Some debit
    /\ transactions
         (session
            (book
               (snd (add_transaction (lib := reliable fresh) "Lunch"
                       twelve_fifty "Assets:Cash" "Expenses:Food"
                       (state fresh [])))))
       = transactions (session (book (state fresh []))) ++ [t]
    /\ splits t = [mkSplit twelve_fifty credit; mkSplit (neg twelve_fifty) debit]
    /\ List.length (splits t) = 2%nat
    /\ "Lunch" = description t
    /\ is_zero (splits_total t) = true
    /\ file
         (book
            (snd (add_transaction (lib := reliable fresh) "Lunch"
                    twelve_fifty "Assets:Cash" "Expenses:Food"
                    (state fresh []))))
       = session
           (book
              (snd (add_transaction (lib := reliable fresh) "Lunch"
                      twelve_fifty "Assets:Cash" "Expenses:Food"
                      (state fresh [])))).
Proof.
  apply (add_transaction_two_balanced_splits (lib := reliable fresh) "Lunch"
           twelve_fifty "Assets:Cash" "Expenses:Food" (state fresh [])).
  vm_compute. reflexivity.
Defined.

(** C2, at the input where the code departs from it: with neither
    account in the book, [add_transaction] returns [None], not [False];
    the book is untouched and nothing is logged. *)
Theorem add_transaction_both_missing_returns_None :
  add_transaction (lib := reliable fresh) "Bad" (mkDecimal 500 (-2))
    "NoSuchAccount" "NoSuchEither" (state fresh [])
  = (Returned None, state fresh []).
Proof. vm_compute. reflexivity. Qed.

(** With one account missing the same call returns [False]. *)
Example add_transaction_debit_missing_returns_False :
  fst (add_transaction (lib := reliable fresh) "Bad" (mkDecimal 500 (-2))
         "NoSuchAccount" "Expenses:Food" (state fresh []))
  = Returned (Some false).
Proof. vm_compute. reflexivity. Qed.

(** C3, at the input where the code departs from it: asked for the last
    0 transactions of a book with two well-formed transactions,
    [last_n_transactions] returns both. *)
Theorem last_n_transactions_zero_returns_all :
  fst (last_n_transactions (lib := reliable three) 0 (state three []))
  = Returned [dinner_row; lunch_row].
Proof. vm_compute. reflexivity. Qed.

Example last_n_transactions_two :
  fst (last_n_transactions (lib := reliable three) 2 (state three []))
  = Returned [dinner_row].
Proof. vm_compute. reflexivity. Qed.

Example last_n_transactions_three :
  fst (last_n_transactions (lib := reliable three) 3 (state three []))
  = Returned [dinner_row; lunch_row].
Proof. vm_compute. reflexivity. Qed.

(** C4 fails in a book that holds, before [Assets:Cash], an account
    [assets:cash]: the lookup takes the first account whose name matches
    without regard to case, and the row names that account. *)
Lemma lunch_round_trip_shadowed :
  In cash (accounts (session (book (state shadowed []))))
  /\ In food (accounts (session (book (state shadowed []))))
  /\ fst (add_transaction (lib := reliable shadowed) "Lunch" twelve_fifty
            "Assets:Cash" "Expenses:Food" (state shadowed []))
     = Returned (Some true)
  /\ fst (last_n_transactions (lib := reliable shadowed) 1
            (snd (add_transaction (lib := reliable shadowed) "Lunch"
                    twelve_fifty "Assets:Cash" "Expenses:Food"
                    (state shadowed []))))
     = Returned
         [[("date", "2021-01-04"); ("source", "assets:cash");
           ("dest", "Expenses:Food"); ("description", "Lunch");
           ("amount", "$12.50")]]
  /\ "assets:cash" <> "Assets:Cash".
Proof.
  split; [right; left; reflexivity|].
  split; [right; right; left; reflexivity|].
  split; [vm_compute; reflexivity|].
  split; [vm_compute; reflexivity|discriminate].
Qed.

Lemma lunch_round_trip_witness :
  exists row,
    fst (last_n_transactions (lib := reliable fresh) 1
           (snd (add_transaction (lib := reliable fresh) "Lunch"
                   (mkDecimal 1250 (-2)) "Assets:Cash" "Expenses:Food"
                   (state fresh []))))
    = Returned [row]
    /\ dict_get "source" row = Some "Assets:Cash"
    /\ dict_get "dest" row = Some "Expenses:Food"
    /\ dict_get "amount" row = Some "$12.50"
    /\ dict_get "description" row = Some "Lunch".
Proof.
  apply (lunch_round_trip (lib := reliable fresh) (state fresh []) cash food);
    vm_compute; reflexivity.
Defined.

(** C5 fails on the book [one]: its listing puts [Expenses:Food] before
    [Expenses-Old], which is not the order of the full names, and shows
    the balance of [Assets:Cash] as [$-12.50]. *)
Lemma balances_not_by_account_name_nor_unsigned :
  exists rows,
    fst (balances (lib := reliable one) "book.gnucash" (state one []))
    = Returned rows
    /\ ~ listing_by_account_name (lib := reliable one) (opened one) rows
    /\ ~ balances_unsigned rows.
Proof.
  eexists. split; [vm_compute; reflexivity|]. split.
  - intros (accts & Hperm & Hsorted & Hrows).
    destruct accts as [|a1 [|a2 [|a3 [|a4 r]]]]; try discriminate.
    injection Hrows as _ _ H2 _ H3 _.
    assert (Hin2 : In a2 [cash; food; old])
      by (apply (Permutation_in _ Hperm); right; left; reflexivity).
    assert (Hin3 : In a3 [cash; food; old])
      by (apply (Permutation_in _ Hperm); right; right; left; reflexivity).
    assert (E2 : a2 = food).
    { destruct Hin2 as [<-|[<-|[<-|[]]]].
      - vm_compute in H2. discriminate.
      - reflexivity.
      - vm_compute in H2. discriminate. }
    assert (E3 : a3 = old).
    { destruct Hin3 as [<-|[<-|[<-|[]]]].
      - vm_compute in H3. discriminate.
      - vm_compute in H3. discriminate.
      - reflexivity. }
    subst a2 a3.
    inversion Hsorted as [|? ? Hs1 _]. subst.
    inversion Hs1 as [|? ? _ Hhd]. subst.
    inversion Hhd as [|? ? Hle]. subst.
    vm_compute in Hle. discriminate.
  - intros Hall. inversion Hall as [|? ? (v & Hv & Hpat) _]. subst.
    vm_compute in Hv. injection Hv as <-.
    vm_compute in Hpat. discriminate.
Qed.

Lemma balances_sorted_signed_witness :
  Sorted by_fullname_key
    [[("fullname", "Assets ➔ Cash"); ("balance", "$-12.50")];
     [("fullname", "Expenses ➔ Food"); ("balance", "$12.50")];
     [("fullname", "Expenses-Old"); ("balance", "$0.00")]]
  /\ Forall (fun row =>
               exists v, dict_get "balance" row = Some v
                         /\ signed_money_pattern v = true)
       [[("fullname", "Assets ➔ Cash"); ("balance", "$-12.50")];
        [("fullname", "Expenses ➔ Food"); ("balance", "$12.50")];
        [("fullname", "Expenses-Old"); ("balance", "$0.00")]].
Proof.
  destruct (balances_sorted_signed (lib := reliable one) "book.gnucash"
              (state one [])
              [[("fullname", "Assets ➔ Cash"); ("balance", "$-12.50")];
               [("fullname", "Expenses ➔ Food"); ("balance", "$12.50")];
               [("fullname", "Expenses-Old"); ("balance", "$0.00")]])
    as (Hsorted & Hpat & _).
  - vm_compute. reflexivity.
  - split; assumption.
Defined.

(** C6 fails on the book [odd].  The transaction [lopsided] has a first
    split of 0.00 and a second of -5.00: the negative split, on
    [Assets:Cash], is listed as the destination.  The transaction
    [fortune] moves 70368744177664.01: the amount is shown as
    70368744177664.02, the two-decimal text of the nearest float. *)
Lemma last_n_transactions_misclassifies :
  fst (last_n_transactions (lib := reliable odd) 2 (state odd []))
  = Returned
      [[("date", "2021-01-06"); ("source", "Assets:Cash");
        ("dest", "Expenses:Food"); ("description", "Fortune");
        ("amount", "$70368744177664.02")];
       [("date", "2021-01-05"); ("source", "Expenses:Food");
        ("dest", "Assets:Cash"); ("description", "Lopsided");
        ("amount", "$5.00")]]
  /\ splits lopsided
     = [mkSplit (mkDecimal 0 (-2)) food; mkSplit (mkDecimal (-500) (-2)) cash]
  /\ is_negative (mkDecimal (-500) (-2)) = true
  /\ is_negative (mkDecimal 0 (-2)) = false
  /\ fullname cash = "Assets:Cash"
  /\ splits fortune
     = [mkSplit (mkDecimal 7036874417766401 (-2)) food;
        mkSplit (mkDecimal (-7036874417766401) (-2)) cash]
  /\ ("$" ++ fixed2 false 7036874417766401)%string = "$70368744177664.01"
  /\ "$70368744177664.02" <> "$70368744177664.01".
Proof.
  split; [vm_compute; reflexivity|].
  repeat (split; [reflexivity|]).
  discriminate.
Qed.

Lemma last_n_transactions_classifies_witness :
  exists t first second src dst,
    In t (transactions (session (book (state three []))))
    /\ splits t = [first; second]
    /\ (is_positive (value first) = true -> src = second /\ dst = first)
    /\ (is_positive (value first) = false -> src = first /\ dst = second)
    /\ dict_get "source" dinner_row = Some (fullname (account src))
    /\ dict_get "dest" dinner_row = Some (fullname (account dst))
    /\ dict_get "amount" dinner_row
       = Some ("$" ++ format_float_2f
                         (float_of_decimal (dec_abs (value dst))))%string
    /\ (forall x y,
          splits t = [x; y] \/ splits t = [y; x] ->
          is_negative (value x) = true -> is_positive (value y) = true ->
          x = src /\ y = dst)
    /\ (forall cents,
          whole_cents (value dst) cents -> cents < 100 * 2 ^ 46 ->
          dict_get "amount" dinner_row
          = Some ("$" ++ fixed2 false cents)%string).
Proof.
  apply (last_n_transactions_classifies (lib := reliable three) 2
           (state three []) [dinner_row] dinner_row).
  - vm_compute. reflexivity.
  - left. reflexivity.
Defined.

(** A value that piecash hands back as 12.5, with one decimal, is so
    many whole cents all the same, and is shown as 12.50. *)
Example whole_cents_one_decimal :
  whole_cents (mkDecimal 125 (-1)) 1250
  /\ format_float_2f (float_of_decimal (dec_abs (mkDecimal 125 (-1))))
     = "12.50".
Proof. split; vm_compute; reflexivity. Qed.

(** C8 fails for the amount -5.00: both accounts resolve, the library
    raises nothing, the call returns [True] and the file holds the new
    transaction. *)
Lemma add_transaction_accepts_negative_amount :
  is_positive minus_five = false
  /\ fst (add_transaction (lib := reliable fresh) "Refund" minus_five
            "Assets:Cash" "Expenses:Food" (state fresh []))
     = Returned (Some true)
  /\ fst (add_transaction (lib := reliable fresh) "Refund" minus_five
            "Assets:Cash" "Expenses:Food" (state fresh []))
     <> Returned (Some false)
  /\ List.length
       (transactions
          (file
             (book
                (snd (add_transaction (lib := reliable fresh) "Refund"
                        minus_five "Assets:Cash" "Expenses:Food"
                        (state fresh []))))))
     = 1%nat.
Proof.
  split; [reflexivity|].
  split; [vm_compute; reflexivity|].
  split; [vm_compute; discriminate|vm_compute; reflexivity].
Qed.

Lemma add_transaction_amount_unchecked_witness :
  fst (add_transaction (lib := reliable fresh) "Refund" minus_five
         "Assets:Cash" "Expenses:Food" (state fresh []))
  = Returned (Some true)
  /\ transactions
       (file
          (book
             (snd (add_transaction (lib := reliable fresh) "Refund"
                     minus_five "Assets:Cash" "Expenses:Food"
                     (state fresh [])))))
     = transactions (session (book (state fresh [])))
         ++ [built (lib := reliable fresh) "Refund" minus_five cash food
               (Some USD)].
Proof.
  destruct (add_transaction_amount_unchecked (lib := reliable fresh) "Refund"
              minus_five "Assets:Cash" "Expenses:Food" (state fresh [])
              food cash USD) as [H _];
    [vm_compute; reflexivity ..|].
  apply H; vm_compute; reflexivity.
Defined.

(** The library's [ValueError] is what turns an amount down: one that
    does not fit a 64-bit numerator is refused, and the call returns
    [False]. *)
Example add_transaction_unrepresentable_amount :
  fst (add_transaction (lib := reliable fresh) "Huge" (mkDecimal 1 30)
         "Assets:Cash" "Expenses:Food" (state fresh []))
  = Returned (Some false).
Proof. vm_compute. reflexivity. Qed.

(** C9 fails for the number of transactions: when it is missing,
    [get_env_var] returns [None] and the route that reads it ends with a
    [TypeError] from [int(None)]; the process does not exit. *)
Lemma missing_num_transactions_not_fatal :
  dict_get "NUM_TRANSACTIONS" (environ (state three partial_env)) = None
  /\ fst (get_env_var "NUM_TRANSACTIONS" (state three partial_env))
     = Returned None
  /\ fst (transactions_route (lib := reliable three) "book.gnucash"
            (state three partial_env))
     = Raised
         (TypeError
            "int() argument must be a string, a bytes-like object or a real number, not 'NoneType'").
Proof. repeat split; vm_compute; reflexivity. Qed.

Lemma missing_configuration_witness :
  fst (get_book_name_from_env (state three [])) = Exited 1
  /\ fst (get_gnucash_dir (state three [])) = Exited 1
  /\ fst (get_env_var "NUM_TRANSACTIONS" (state three [])) = Returned None.
Proof.
  destruct (missing_configuration (state three [])) as (H1 & H2 & H3).
  rewrite H1, H2, H3 by reflexivity.
  repeat split; reflexivity.
Defined.

Lemma save_error_exits_add_account_only_witness :
  fst (add_account (lib := unreliable fresh) "Rent" "Expenses"
         (state fresh []))
  = Exited 1
  /\ fst (add_transaction (lib := unreliable fresh) "Lunch" twelve_fifty
            "Assets:Cash" "Expenses:Food" (state fresh []))
     = Returned (Some false).
Proof.
  destruct (save_error_exits_add_account_only (lib := unreliable fresh)
              "database is locked" (state fresh [])) as (H1 & H2).
  split.
  - apply (H1 "Rent" "Expenses" expenses USD); vm_compute; reflexivity.
  - apply (H2 "Lunch" twelve_fifty "Assets:Cash" "Expenses:Food" food cash
             USD); vm_compute; reflexivity.
Defined.

(** * Further properties of the helper *)

(** ** Looking accounts up *)

Lemma lower_ascii_idempotent c : lower_ascii (lower_ascii c) = lower_ascii c.
Proof.
  destruct c as [[] [] [] [] [] [] [] []]; vm_compute; reflexivity.
Qed.

Lemma lower_idempotent s : lower (lower s) = lower s.
Proof.
  induction s as [|c s IH]; [reflexivity|].
  cbn [lower]. rewrite lower_ascii_idempotent, IH. reflexivity.
Qed.

Lemma find_none_iff {A : Type} (p : A -> bool) l :
  find p l = None <-> forall x, In x l -> p x = false.
Proof.
  split; [apply find_none|].
  induction l as [|y l IH]; intros H; [reflexivity|].
  cbn. rewrite (H y (or_introl eq_refl)). apply IH.
  intros x Hx. apply H. right. exact Hx.
Qed.

Lemma find_first {A : Type} (p : A -> bool) l1 a l2 :
  (forall x, In x l1 -> p x = false) -> p a = true ->
  find p (l1 ++ a :: l2) = Some a.
Proof.
  intros Hl1 Ha. induction l1 as [|y l1 IH]; cbn.
  - rewrite Ha. reflexivity.
  - rewrite (Hl1 y (or_introl eq_refl)). apply IH.
    intros x Hx. apply Hl1. right. exact Hx.
Qed.

Lemma get_account_find account_name b :
  get_account account_name b
  = find (matches account_name) (accounts (session b)).
Proof. reflexivity. Qed.

(** X1: the account that [get_account] returns is an account of the book
    whose full name is the searched name up to letter case. *)
Theorem get_account_sound (account_name : string) (b : Book) (a : Account) :
  get_account account_name b = Some a ->
  In a (accounts (session b))
  /\ lower (fullname a) = lower account_name.
Proof.
  rewrite get_account_find. intros H. apply find_some in H.
  destruct H as [Hin Hm]. split; [exact Hin|].
  apply String.eqb_eq. exact Hm.
Qed.

(** X2: [get_account] returns [None] exactly when no account of the book
    has the searched name up to letter case. *)
Theorem get_account_none_iff (account_name : string) (b : Book) :
  get_account account_name b = None
  <-> forall a, In a (accounts (session b)) ->
                lower (fullname a) <> lower account_name.
Proof.
  rewrite get_account_find, find_none_iff. unfold matches.
  split; intros H a Ha.
  - apply String.eqb_neq. apply H. exact Ha.
  - apply String.eqb_neq. apply H. exact Ha.
Qed.

(** X3: of several accounts whose names differ by letter case only,
    [get_account] returns the one that comes first in the book. *)
Theorem get_account_first (account_name : string) (b : Book)
  (before after : list Account) (a : Account) :
  accounts (session b) = before ++ a :: after ->
  (forall x, In x before -> lower (fullname x) <> lower account_name) ->
  lower (fullname a) = lower account_name ->
  get_account account_name b = Some a.
Proof.
  intros Hacc Hbefore Ha. rewrite get_account_find, Hacc.
  apply find_first.
  - intros x Hx. apply String.eqb_neq. apply Hbefore. exact Hx.
  - apply String.eqb_eq. exact Ha.
Qed.

(** X4: the letter case of the searched name does not matter: two names
    that are equal once lower-cased resolve alike, and so do a name and
    its lower-cased form. *)
Theorem get_account_ignores_case (n1 n2 : string) (b : Book) :
  (lower n1 = lower n2 -> get_account n1 b = get_account n2 b)
  /\ get_account (lower n1) b = get_account n1 b.
Proof.
  split.
  - intros H. unfold get_account. rewrite H. reflexivity.
  - unfold get_account. rewrite lower_idempotent. reflexivity.
Qed.

(** X5: every account of the book resolves by its own full name, to an
    account of the same name up to letter case that is not after it in
    the book. *)
Theorem get_account_own_name (b : Book) (a : Account) :
  In a (accounts (session b)) ->
  exists a' before after,
    get_account (fullname a) b = Some a'
    /\ lower (fullname a') = lower (fullname a)
    /\ accounts (session b) = before ++ a' :: after
    /\ (a' = a \/ In a after).
Proof.
  rewrite get_account_find. unfold matches.
  induction (accounts (session b)) as [|y l IH]; intros Hin; [contradiction|].
  cbn [find].
  destruct (lower (fullname y) =? lower (fullname a))%string eqn:Hy.
  - exists y, [], l. split; [reflexivity|].
    split; [apply String.eqb_eq; exact Hy|]. split; [reflexivity|].
    destruct Hin as [->|Hin]; [left; reflexivity|right; exact Hin].
  - destruct Hin as [->|Hin].
    + rewrite String.eqb_refl in Hy. discriminate.
    + destruct (IH Hin) as (a' & before & after & Hf & Hl & Hsplit & Hpos).
      exists a', (y :: before), after.
      split; [exact Hf|]. split; [exact Hl|]. split; [|exact Hpos].
      cbn. rewrite Hsplit. reflexivity.
Qed.

(** ** Opening the book, listing the accounts *)

Section Opening.

Context {lib : Library}.

(** X6: [open_book] installs the book that piecash opens and logs
    nothing; when piecash raises a [GnucashException] it logs two
    critical records, the second one the text of the exception, and
    exits with code 1, the book of the state being untouched; any other
    exception propagates. *)
Theorem open_book_outcomes (path : string)
  (readonly open_if_lock do_backup : bool) (s : State) :
  (forall l,
      open_path path readonly open_if_lock do_backup = inl l ->
      open_book path readonly open_if_lock do_backup s
      = (Returned tt, with_book s (mkBook l l 0)))
  /\ (forall gce,
         open_path path readonly open_if_lock do_backup
         = inr (GnucashException gce) ->
         fst (open_book path readonly open_if_lock do_backup s) = Exited 1
         /\ book (snd (open_book path readonly open_if_lock do_backup s))
            = book s
         /\ log (snd (open_book path readonly open_if_lock do_backup s))
            = log s
                ++ [(CRITICAL,
                     ("Error while attempting to open GnuCash book " ++ dq
                        ++ path ++ dq)%string);
                    (CRITICAL, gce)])
  /\ (forall e,
         open_path path readonly open_if_lock do_backup = inr e ->
         (forall gce, e <> GnucashException gce) ->
         open_book path readonly open_if_lock do_backup s = (Raised e, s)).
Proof.
  rewrite open_book_run. repeat split.
  - intros l H. rewrite H. reflexivity.
  - rewrite H. reflexivity.
  - rewrite H. reflexivity.
  - rewrite H. cbn. rewrite <- app_assoc. reflexivity.
  - intros e H Hne. rewrite H.
    destruct e; try reflexivity. exfalso. exact (Hne _ eq_refl).
Qed.

Lemma list_accounts_run path s :
  list_accounts path s
  = match open_path path true true false with
    | inl l =>
        (Returned (sorted (fun x => x) (map fullname (accounts l))),
         with_book s (mkBook l l 0))
    | inr (GnucashException gce) =>
        (Exited 1,
         logged
           (logged s CRITICAL
              ("Error while attempting to open GnuCash book " ++ dq ++ path
                 ++ dq))
           CRITICAL gce)
    | inr e => (Raised e, s)
    end.
Proof.
  unfold list_accounts.
  pose proof (open_book_run path true true false s) as Hopen.
  destruct (open_path path true true false) as [l|e].
  - rewrite (bind_returned _ _ _ _ _ Hopen). reflexivity.
  - destruct e;
      first [rewrite (bind_raised _ _ _ _ _ Hopen)
            |rewrite (bind_exited _ _ _ _ _ Hopen)];
      reflexivity.
Qed.

(** X7: when [list_accounts] returns, it returns the full names of all
    the accounts of the book at the path, duplicates included, in
    ascending order, and it has logged nothing. *)
Theorem list_accounts_sorted (path : string) (s : State)
  (names : list string) :
  fst (list_accounts path s) = Returned names ->
  exists l,
    open_path path true true false = inl l
    /\ Permutation names (map fullname (accounts l))
    /\ Sorted text_le names
    /\ log (snd (list_accounts path s)) = log s.
Proof.
  rewrite list_accounts_run.
  destruct (open_path path true true false) as [l|e];
    [|destruct e; discriminate].
  intros H. injection H as <-. exists l.
  split; [reflexivity|]. split; [apply sorted_perm|].
  split; [apply (sorted_Sorted (fun x => x))|reflexivity].
Qed.

(** X8: when the book cannot be opened, [list_accounts] ends as
    [open_book] does: exit code 1 after two critical records for a
    [GnucashException], the exception itself otherwise; it never returns
    a list. *)
Theorem list_accounts_unopened (path : string) (s : State) (e : exn) :
  open_path path true true false = inr e ->
  (forall names, fst (list_accounts path s) <> Returned names)
  /\ ((exists gce, e = GnucashException gce)
      -> fst (list_accounts path s) = Exited 1)
  /\ ((forall gce, e <> GnucashException gce)
      -> list_accounts path s = (Raised e, s)).
Proof.
  intros H. rewrite list_accounts_run, H. repeat split.
  - intros names. destruct e; discriminate.
  - intros (gce & ->). reflexivity.
  - intros Hne. destruct e; try reflexivity.
    exfalso. exact (Hne _ eq_refl).
Qed.

End Opening.

(** ** Creating accounts *)

Section Accounts.

Context {lib : Library}.

(** [add_account] from the lookup of the parent to the save. *)
Lemma add_account_run new_acct_name parent s parent_account usd :
  account_named parent (book s) = Some parent_account ->
  child_exists new_acct_name parent_account (book s) = false ->
  usd_commodity (book s) = Some usd ->
  let b2 := with_account (book s) (created new_acct_name parent_account usd) in
  add_account new_acct_name parent s
  = match save_error b2 with
    | None =>
        (Returned true,
         logged (with_book s (saved b2)) INFO
           ("Successfully saved book with new account " ++ dq
              ++ new_acct_name ++ dq ++ ", child of parent account "
              ++ dq ++ parent ++ dq))
    | Some (GnucashException gce) =>
        (Exited 1,
         logged
           (logged (with_book s (unsaved b2)) CRITICAL
              "Encounted GnuCash Error while saving book:")
           CRITICAL gce)
    | Some e => (Raised e, with_book s (unsaved b2))
    end.
Proof.
  intros Hp Hdup Hu b2.
  unfold add_account, callable_get.
  unfold account_named in Hp. unfold usd_commodity in Hu.
  unfold child_exists in Hdup.
  rewrite bind_get_book, Hp. rewrite bind_ret, Hdup.
  rewrite Hu, bind_ret.
  unfold new_Account. fold (created new_acct_name parent_account usd).
  unfold try_except, book_save, bind, get_book, put_book, ret.
  replace (book (with_book s (with_account (book s)
             (created new_acct_name parent_account usd)))) with b2
    by reflexivity.
  destruct (save_error b2) as [e|]; [|reflexivity].
  unfold raise. destruct e; reflexivity.
Qed.

(** X9: when the parent is found, has no child of that name, the USD
    commodity exists and the save goes through, [add_account] returns
    [True]; the book then holds, after its former accounts, one new
    account named [parent:new_acct_name], of type EXPENSE, in USD, under
    that parent, and the file holds what the session holds. *)
Theorem add_account_creates (new_acct_name parent : string) (s : State)
  (parent_account : Account) (usd : Commodity) :
  account_named parent (book s) = Some parent_account ->
  child_exists new_acct_name parent_account (book s) = false ->
  usd_commodity (book s) = Some usd ->
  save_error
    (with_account (book s) (created new_acct_name parent_account usd))
  = None ->
  let run := add_account new_acct_name parent s in
  fst run = Returned true
  /\ accounts (session (book (snd run)))
     = accounts (session (book s))
         ++ [mkAccount new_acct_name (parent ++ ":" ++ new_acct_name)
               "EXPENSE" parent usd]
  /\ transactions (session (book (snd run)))
     = transactions (session (book s))
  /\ file (book (snd run)) = session (book (snd run))
  /\ saves (book (snd run)) = S (saves (book s)).
Proof.
  intros Hp Hdup Hu Hs run. subst run.
  rewrite (add_account_run _ _ _ _ _ Hp Hdup Hu). cbv zeta. rewrite Hs.
  assert (Hname : fullname parent_account = parent).
  { unfold account_named in Hp. apply find_some in Hp.
    apply String.eqb_eq. exact (proj2 Hp). }
  unfold created. rewrite Hname. repeat split; reflexivity.
Qed.

(** [add_account] when the parent has a child of that name. *)
Lemma add_account_duplicate_run (new_acct_name parent : string) (s : State)
  (parent_account : Account) :
  account_named parent (book s) = Some parent_account ->
  child_exists new_acct_name parent_account (book s) = true ->
  add_account new_acct_name parent s
  = (Returned false,
     logged s WARNING
       ("The " ++ new_acct_name
          ++ " account already exists as a child of your " ++ parent
          ++ " account. Skipping")).
Proof.
  intros Hp Hdup. unfold add_account, callable_get.
  unfold account_named in Hp. unfold child_exists in Hdup.
  rewrite bind_get_book, Hp, bind_ret, Hdup. reflexivity.
Qed.

(** X10: when the parent already has a child of that name, in any letter
    case, [add_account] returns [False], logs one warning, and leaves the
    book as it was: nothing is created and nothing is saved. *)
Theorem add_account_duplicate (new_acct_name parent : string) (s : State)
  (parent_account : Account) :
  account_named parent (book s) = Some parent_account ->
  child_exists new_acct_name parent_account (book s) = true ->
  add_account new_acct_name parent s
  = (Returned false,
     logged s WARNING
       ("The " ++ new_acct_name
          ++ " account already exists as a child of your " ++ parent
          ++ " account. Skipping")).
Proof. exact (add_account_duplicate_run new_acct_name parent s parent_account). Qed.

(** X11: when no account has the parent's full name, in exactly that
    letter case, [add_account] creates nothing and saves nothing: the
    lookup's exception propagates, or, with a library whose lookup yields
    [None], the call returns [False] after one error record. *)
Theorem add_account_no_parent (new_acct_name parent : string) (s : State) :
  account_named parent (book s) = None ->
  book (snd (add_account new_acct_name parent s)) = book s
  /\ match lookup_error ("fullname=" ++ parent) with
     | Some e => add_account new_acct_name parent s = (Raised e, s)
     | None =>
         add_account new_acct_name parent s
         = (Returned false,
            logged s ERROR
              ("There was no parent account named " ++ dq ++ parent ++ dq))
     end.
Proof.
  intros Hp. unfold add_account, callable_get.
  unfold account_named in Hp. rewrite bind_get_book, Hp.
  destruct (lookup_error ("fullname=" ++ parent)) as [e|];
    split; reflexivity.
Qed.

Lemma child_exists_created new_acct_name other parent_account usd b :
  lower other = lower new_acct_name ->
  child_exists other parent_account
    (with_account b (created new_acct_name parent_account usd))
  = true.
Proof.
  intros Hlow. unfold child_exists, children, with_account.
  cbn [session accounts].
  rewrite filter_app, map_app, existsb_app. apply orb_true_iff. right.
  cbn [filter created parent fullname].
  rewrite String.eqb_refl. cbn [map existsb name].
  rewrite Hlow, String.eqb_refl. reflexivity.
Qed.

Lemma find_app_some {A : Type} (p : A -> bool) l l' x :
  find p l = Some x -> find p (l ++ l') = Some x.
Proof.
  induction l as [|y l IH]; cbn; [discriminate|].
  destruct (p y); [auto|exact IH].
Qed.

Lemma account_named_with_account parent b a parent_account :
  account_named parent b = Some parent_account ->
  account_named parent (with_account b a) = Some parent_account.
Proof.
  unfold account_named, with_account. cbn [session accounts].
  apply find_app_some.
Qed.

(** X12: after [add_account] created an account, a second call for the
    same parent and the same name, in any letter case, finds the new
    child: it returns [False] with a warning and leaves the book as the
    first call left it. *)
Theorem add_account_twice (new_acct_name other parent : string) (s : State)
  (parent_account : Account) (usd : Commodity) :
  account_named parent (book s) = Some parent_account ->
  child_exists new_acct_name parent_account (book s) = false ->
  usd_commodity (book s) = Some usd ->
  save_error
    (with_account (book s) (created new_acct_name parent_account usd))
  = None ->
  lower other = lower new_acct_name ->
  let s1 := snd (add_account new_acct_name parent s) in
  fst (add_account other parent s1) = Returned false
  /\ book (snd (add_account other parent s1)) = book s1.
Proof.
  intros Hp Hdup Hu Hs Hlow s1.
  assert (Hb1 : book s1
                = saved (with_account (book s)
                           (created new_acct_name parent_account usd))).
  { subst s1. rewrite (add_account_run _ _ _ _ _ Hp Hdup Hu).
    cbv zeta. rewrite Hs. reflexivity. }
  assert (Hp1 : account_named parent (book s1) = Some parent_account).
  { rewrite Hb1.
    apply (account_named_with_account _ _
             (created new_acct_name parent_account usd)) in Hp.
    exact Hp. }
  assert (Hdup1 : child_exists other parent_account (book s1) = true).
  { rewrite Hb1.
    exact (child_exists_created new_acct_name other parent_account usd
             (book s) Hlow). }
  rewrite (add_account_duplicate_run _ _ _ _ Hp1 Hdup1). split; reflexivity.
Qed.

(** X13: the account that [add_account] created resolves by its full
    name [parent:new_acct_name]: [get_account] returns an account of that
    name up to letter case, and the new account itself when no account
    of the book had such a name before. *)
Theorem add_account_then_get_account (new_acct_name parent : string)
  (s : State) (parent_account : Account) (usd : Commodity) :
  account_named parent (book s) = Some parent_account ->
  child_exists new_acct_name parent_account (book s) = false ->
  usd_commodity (book s) = Some usd ->
  save_error
    (with_account (book s) (created new_acct_name parent_account usd))
  = None ->
  let s1 := snd (add_account new_acct_name parent s) in
  let full := (parent ++ ":" ++ new_acct_name)%string in
  (exists a, get_account full (book s1) = Some a
             /\ lower (fullname a) = lower full)
  /\ (get_account full (book s) = None ->
      get_account full (book s1)
      = Some (mkAccount new_acct_name full "EXPENSE" parent usd)).
Proof.
  intros Hp Hdup Hu Hs s1 full.
  assert (Hname : fullname parent_account = parent).
  { unfold account_named in Hp. apply find_some in Hp.
    apply String.eqb_eq. exact (proj2 Hp). }
  assert (Hacc : accounts (session (book s1))
                 = accounts (session (book s))
                     ++ [mkAccount new_acct_name full "EXPENSE" parent usd]).
  { subst s1. rewrite (add_account_run _ _ _ _ _ Hp Hdup Hu).
    cbv zeta. rewrite Hs. unfold created. rewrite Hname. reflexivity. }
  assert (Hnew : matches full
                   (mkAccount new_acct_name full "EXPENSE" parent usd)
                 = true).
  { unfold matches. cbn [fullname]. apply String.eqb_refl. }
  split.
  - destruct (get_account full (book s1)) as [a|] eqn:Hg.
    + exists a. split; [reflexivity|].
      rewrite get_account_find in Hg. apply find_some in Hg.
      apply String.eqb_eq. exact (proj2 Hg).
    + exfalso. rewrite get_account_find, Hacc in Hg.
      apply find_none with (x := mkAccount new_acct_name full "EXPENSE"
                                    parent usd) in Hg.
      * congruence.
      * apply in_or_app. right. left. reflexivity.
  - intros Hnone. rewrite get_account_find in Hnone |- *. rewrite Hacc.
    apply find_first; [|exact Hnew].
    apply find_none. exact Hnone.
Qed.

End Accounts.

(** ** More on the transaction reader *)

Section MoreReader.

Context {lib : Library}.

(** X14: asked for at least as many transactions as the book holds,
    [last_n_transactions] lists the whole book, most recent first. *)
Theorem last_n_transactions_whole_book (n : Z) (s : State) :
  0 < n ->
  Z.of_nat (List.length (transactions (session (book s)))) <= n ->
  fst (last_n_transactions n s)
  = Returned (listing (rev (transactions (session (book s))))).
Proof.
  intros Hn Hlen.
  destruct (last_n_transactions_run n s) as (s' & Hrun & _).
  rewrite Hrun. unfold selected. rewrite slice_from_last_n by exact Hn.
  unfold last_n.
  replace (List.length (transactions (session (book s))) - Z.to_nat n)%nat
    with 0%nat by lia.
  reflexivity.
Qed.

(** X15: a negative [n] does not count from the end: the slice
    [book.transactions[-n:]] then drops the first [-n] transactions, and
    the listing shows all the others, most recent first. *)
Theorem last_n_transactions_negative (n : Z) (s : State) :
  n < 0 ->
  fst (last_n_transactions n s)
  = Returned
      (listing (rev (skipn (Z.to_nat (- n))
                       (transactions (session (book s)))))).
Proof.
  intros Hn.
  destruct (last_n_transactions_run n s) as (s' & Hrun & _).
  rewrite Hrun. unfold selected, slice_from.
  destruct (Z.ltb_spec (- n) 0) as [H|_]; [lia|].
  set (len := List.length (transactions (session (book s)))).
  destruct (Z.le_gt_cases (- n) (Z.of_nat len)) as [Hle|Hgt].
  - rewrite Z.min_l by exact Hle. reflexivity.
  - rewrite Z.min_r by lia. rewrite Nat2Z.id.
    rewrite !skipn_all2; [reflexivity|lia|fold len; lia].
Qed.

(** X16: the rows of the listing have exactly the keys [date], [source],
    [dest], [description] and [amount], in this order, and the date is
    the enter date of a transaction of the book. *)
Theorem last_n_transactions_row_shape (n : Z) (s : State)
  (rows : list dict) (row : dict) :
  fst (last_n_transactions n s) = Returned rows ->
  In row rows ->
  map fst row = ["date"; "source"; "dest"; "description"; "amount"]
  /\ exists t,
       In t (transactions (session (book s)))
       /\ dict_get "date" row = Some (str_date (enter_date t))
       /\ dict_get "description" row = Some (description t).
Proof.
  intros Hrun Hin.
  destruct (last_n_transactions_run n s) as (s' & Hrun' & _).
  rewrite Hrun' in Hrun. cbn [fst] in Hrun. injection Hrun as <-.
  apply In_listing in Hin. destruct Hin as (t & Ht & Hrow).
  unfold selected in Ht. apply in_rev, In_slice_from in Ht.
  unfold listed in Hrow.
  destruct (splits t) as [|s0 [|s1 [|s2 r]]]; try discriminate.
  injection Hrow as <-. rewrite transaction_dict_eq. cbv zeta.
  split; [reflexivity|]. exists t. split; [exact Ht|].
  split; reflexivity.
Qed.

End MoreReader.

(** ** More on the transaction writer *)

Lemma dec_abs_neg d : dec_abs (neg d) = dec_abs d.
Proof. unfold dec_abs, neg. cbn. rewrite Z.abs_opp. reflexivity. Qed.

Section MoreWriter.

Context {lib : Library}.



(** X19: when exactly one account name does not resolve,
    [add_transaction] logs one error record that names it as it was
    given, and changes nothing else. *)
Theorem add_transaction_names_missing_account (description : string)
  (amount : Decimal) (debit_acct credit_acct : string) (s : State)
  (found : Account) :
  (get_account credit_acct (book s) = Some found ->
   get_account debit_acct (book s) = None ->
   add_transaction description amount debit_acct credit_acct s
   = (Returned (Some false),
      logged s ERROR
        ("The debit account " ++ debit_acct ++ " was not found. Skipping.")))
  /\ (get_account credit_acct (book s) = None ->
      get_account debit_acct (book s) = Some found ->
      add_transaction description amount debit_acct credit_acct s
      = (Returned (Some false),
         logged s ERROR
           ("The credit account " ++ credit_acct
              ++ " was not found. Skipping."))).
Proof.
  split; intros Hc Hd.
  - exact (add_transaction_unresolved_debit _ _ _ _ _ _ Hc Hd).
  - exact (add_transaction_unresolved_credit _ _ _ _ _ _ Hc Hd).
Qed.

(** X20: the transaction that a successful [add_transaction] appended
    carries a currency; when the book held a currency of mnemonic USD
    before the call, it is the first such currency of the book, and the
    commodities of the book are as before. *)
Theorem add_transaction_currency (description : string) (amount : Decimal)
  (debit_acct credit_acct : string) (s : State) :
  let run := add_transaction description amount debit_acct credit_acct s in
  fst run = Returned (Some true) ->
  exists t c,
    transactions (session (book (snd run)))
    = transactions (session (book s)) ++ [t]
    /\ currency t = Some c
    /\ (forall usd,
           usd_currency (book s) = Some usd ->
           c = usd
           /\ commodities (session (book (snd run)))
              = commodities (session (book s))).
Proof.
  intros run Hrun. subst run.
  destruct (get_account credit_acct (book s)) as [credit|] eqn:Hc;
    destruct (get_account debit_acct (book s)) as [debit|] eqn:Hd;
    [|rewrite (add_transaction_unresolved_debit _ _ _ _ _ _ Hc Hd) in Hrun;
      discriminate
     |rewrite (add_transaction_unresolved_credit _ _ _ _ _ _ Hc Hd) in Hrun;
      discriminate
     |rewrite (add_transaction_unresolved_both _ _ _ _ _ Hc Hd) in Hrun;
      discriminate].
  pose proof (book_currencies_run s) as Hlook.
  destruct (usd_currency (book s)) as [c|] eqn:Hu.
  - revert Hrun.
    rewrite (add_transaction_after_lookup _ _ _ _ _ _ _ _ _ Hc Hd Hlook).
    cbv zeta.
    destruct (transaction_error _) as [e|];
      [destruct e; cbn; discriminate|].
    destruct (save_error _) as [e|];
      [destruct e; cbn; discriminate|].
    intros _. eexists _, c. split; [reflexivity|]. split; [reflexivity|].
    intros usd Husd. injection Husd as <-. split; reflexivity.
  - destruct (missing_currency (book s) "USD") as [c|e].
    + revert Hrun.
      rewrite (add_transaction_after_lookup _ _ _ _ _ _ _ _ _ Hc Hd Hlook).
      cbv zeta.
      destruct (transaction_error _) as [e|];
        [destruct e; cbn; discriminate|].
      destruct (save_error _) as [e|];
        [destruct e; cbn; discriminate|].
      intros _. eexists _, c. split; [reflexivity|]. split; [reflexivity|].
      intros usd Husd. discriminate.
    + rewrite (add_transaction_no_currency _ _ _ _ _ _ _ _ Hc Hd Hlook)
        in Hrun.
      destruct e; discriminate.
Qed.

(** X21: what [add_transaction] wrote is what [last_n_transactions]
    reads back: after a call that returned [True], the listing of the
    last transaction is one row with the description given and the
    absolute value of the amount.  For a positive amount its source is
    the debit account and its destination the credit account; for an
    amount that is not positive the two are exchanged. *)
Theorem add_transaction_then_listing (description : string)
  (amount : Decimal) (debit_acct credit_acct : string) (s : State) :
  let run := add_transaction description amount debit_acct credit_acct s in
  fst run = Returned (Some true) ->
  exists credit debit row,
    get_account credit_acct (book s) = Some credit
    /\ get_account debit_acct (book s) = Some debit
    /\ fst (last_n_transactions 1 (snd run)) = Returned [row]
    /\ dict_get "description" row = Some description
    /\ dict_get "amount" row
       = Some ("$" ++ format_float_2f
                         (float_of_decimal (dec_abs amount)))%string
    /\ (is_positive amount = true ->
        dict_get "source" row = Some (fullname debit)
        /\ dict_get "dest" row = Some (fullname credit))
    /\ (is_positive amount = false ->
        dict_get "source" row = Some (fullname credit)
        /\ dict_get "dest" row = Some (fullname debit)).
Proof.
  intros run Hrun.
  destruct (add_transaction_success _ _ _ _ _ Hrun)
    as (credit & debit & t & Hc & Hd & Htx & Hsp & _ & Hdesc & _).
  fold run in Htx.
  exists credit, debit.
  destruct (last_n_transactions_run 1 (snd run)) as (s' & Hlist & _).
  rewrite Hlist. unfold selected.
  rewrite slice_from_last_n by lia. rewrite Htx.
  change (Z.to_nat 1) with 1%nat. rewrite last_n_one_snoc.
  cbn [rev app listing flat_map]. unfold listed. rewrite Hsp.
  rewrite transaction_dict_eq. cbn [fst].
  eexists. split; [exact Hc|]. split; [exact Hd|].
  split; [reflexivity|].
  unfold is_debit. cbn [value].
  destruct (is_positive amount) eqn:Hpos; cbv zeta; cbn [value account].
  - split; [rewrite Hdesc; reflexivity|]. split; [reflexivity|].
    split; [intros _; split; reflexivity|discriminate].
  - split; [rewrite Hdesc; reflexivity|].
    split; [rewrite dec_abs_neg; reflexivity|].
    split; [discriminate|intros _; split; reflexivity].
Qed.

End MoreWriter.

(** ** The routes *)

Lemma get_env_var_set name v s :
  dict_get name (environ s) = Some v ->
  get_env_var name s = (Returned (Some v), s).
Proof.
  intros H. unfold get_env_var, try_except, env_item, bind. rewrite H.
  reflexivity.
Qed.

Lemma get_env_var_unset name s :
  dict_get name (environ s) = None ->
  get_env_var name s
  = (Returned None,
     logged s CRITICAL
       ("Could not get env. var. " ++ dq ++ repr name ++ dq
          ++ ". Make sure it is set")).
Proof.
  intros H. unfold get_env_var, try_except, env_item, bind. rewrite H.
  reflexivity.
Qed.

Section Routes.

Context {lib : Library}.

(** The state in which a route finds itself once [open_book] has run. *)
Lemma transactions_route_opened path s l :
  open_path path false true false = inl l ->
  transactions_route path s
  = (v <- get_env_var "NUM_TRANSACTIONS" ;;
     num_transactions <- int v ;;
     transactions <- last_n_transactions num_transactions ;;
     book_close ;;
     ret (transactions, num_transactions))
      (with_book
         (logged s INFO "Attempting to open book inside transactions route")
         (mkBook l l 0)).
Proof.
  intros Hopen. unfold transactions_route. rewrite bind_logger.
  set (s1 := logged s INFO _).
  pose proof (open_book_run path false true false s1) as Hrun.
  rewrite Hopen in Hrun.
  rewrite (bind_returned _ _ _ _ _ Hrun). reflexivity.
Qed.

(** X22: with the book opened and [NUM_TRANSACTIONS] set to the text of
    a positive integer [n], the transactions route hands to its template
    the number [n] and the listing of the last [n] transactions of the
    book, most recent first: at most [n] rows. *)
Theorem transactions_route_lists (path : string) (s : State) (l : Ledger)
  (v : string) (n : Z) :
  open_path path false true false = inl l ->
  dict_get "NUM_TRANSACTIONS" (environ s) = Some v ->
  int_of_text v = Some n ->
  0 < n ->
  exists rows,
    fst (transactions_route path s) = Returned (rows, n)
    /\ rows = listing (rev (last_n (Z.to_nat n) (transactions l)))
    /\ Z.of_nat (List.length rows) <= n.
Proof.
  intros Hopen Henv Hint Hn.
  rewrite (transactions_route_opened _ _ _ Hopen).
  set (s2 := with_book _ _).
  assert (Henv2 : dict_get "NUM_TRANSACTIONS" (environ s2) = Some v)
    by exact Henv.
  rewrite (bind_returned _ _ _ _ _ (get_env_var_set _ _ _ Henv2)).
  unfold int. rewrite Hint, bind_ret.
  destruct (last_n_transactions_run n s2) as (s3 & Hrun & _).
  rewrite (bind_returned _ _ _ _ _ Hrun).
  eexists. split; [reflexivity|].
  unfold selected. rewrite slice_from_last_n by exact Hn.
  split; [reflexivity|].
  rewrite listing_length.
  pose proof (filter_length_le two_splits
                (rev (last_n (Z.to_nat n) (transactions l)))) as Hle.
  rewrite length_rev, last_n_length in Hle.
  change (transactions (session (book s2))) with (transactions l).
  lia.
Qed.

(** X23: how the transactions route fails.  When the book cannot be
    opened for a [GnucashException] the process exits with code 1 before
    the environment is read; with the book opened, a missing
    [NUM_TRANSACTIONS] ends the request with the [TypeError] of
    [int(None)], and a text that is not an integer with a [ValueError];
    in neither case is a listing produced. *)
Theorem transactions_route_failures (path : string) (s : State) :
  (forall gce,
      open_path path false true false = inr (GnucashException gce) ->
      fst (transactions_route path s) = Exited 1)
  /\ (forall l,
         open_path path false true false = inl l ->
         dict_get "NUM_TRANSACTIONS" (environ s) = None ->
         exists m, fst (transactions_route path s) = Raised (TypeError m))
  /\ (forall l v,
         open_path path false true false = inl l ->
         dict_get "NUM_TRANSACTIONS" (environ s) = Some v ->
         int_of_text v = None ->
         exists m, fst (transactions_route path s) = Raised (ValueError m)).
Proof.
  split; [|split].
  - intros gce Hopen. unfold transactions_route. rewrite bind_logger.
    set (s1 := logged s INFO _).
    pose proof (open_book_run path false true false s1) as Hrun.
    rewrite Hopen in Hrun.
    rewrite (bind_exited _ _ _ _ _ Hrun). reflexivity.
  - intros l Hopen Henv.
    rewrite (transactions_route_opened _ _ _ Hopen).
    set (s2 := with_book _ _).
    assert (Henv2 : dict_get "NUM_TRANSACTIONS" (environ s2) = None)
      by exact Henv.
    rewrite (bind_returned _ _ _ _ _ (get_env_var_unset _ _ Henv2)).
    eexists. reflexivity.
  - intros l v Hopen Henv Hint.
    rewrite (transactions_route_opened _ _ _ Hopen).
    set (s2 := with_book _ _).
    assert (Henv2 : dict_get "NUM_TRANSACTIONS" (environ s2) = Some v)
      by exact Henv.
    rewrite (bind_returned _ _ _ _ _ (get_env_var_set _ _ _ Henv2)).
    unfold int. rewrite Hint. eexists. reflexivity.
Qed.

(** X24: the balances route shows one row per account of the book, and
    none at all when the book cannot be opened: a [GnucashException]
    ends the process with exit code 1, another exception propagates. *)
Theorem balances_rows_or_failure (path : string) (s : State) :
  (forall l,
      open_path path true true false = inl l ->
      exists rows,
        fst (balances path s) = Returned rows
        /\ List.length rows = List.length (accounts l))
  /\ (forall gce,
         open_path path true true false = inr (GnucashException gce) ->
         fst (balances path s) = Exited 1)
  /\ (forall e,
         open_path path true true false = inr e ->
         (forall gce, e <> GnucashException gce) ->
         fst (balances path s) = Raised e).
Proof.
  rewrite balances_run. split; [|split].
  - intros l H. rewrite H. eexists. split; [reflexivity|].
    rewrite (Permutation_length (sorted_perm fullname_key _)).
    apply length_map.
  - intros gce H. rewrite H. reflexivity.
  - intros e H Hne. rewrite H. destruct e; try reflexivity.
    exfalso. exact (Hne _ eq_refl).
Qed.

(** The index route up to the test of the submission. *)
Lemma index_form path posted s l :
  open_path path true true false = inl l ->
  index path posted s
  = match posted (sorted (fun x => x) (map fullname (accounts l))) with
    | Some form =>
        (logger INFO "Attempting to open book in index route" ;;
         open_book path false true false ;;
         added_txn <-
           add_transaction (description_data form) (amount_data form)
             (debit_data form) (credit_data form) ;;
         book_close ;;
         match added_txn with
         | Some true =>
             ret (Redirected "index"
                    ("Transaction for "
                       ++ format_float_2f (float_of_decimal (amount_data form))
                       ++ " saved to GnuCash file.")
                    "success")
         | _ =>
             ret (Redirected "index"
                    ("Transaction for "
                       ++ format_float_2f (float_of_decimal (amount_data form))
                       ++ " was not saved to GnuCash file.")
                    "danger")
         end)
    | None =>
        ret (Rendered "index.html"
               (sorted (fun x => x) (map fullname (accounts l))))
    end
      (with_book
         (logged
            (logged s INFO "Creating new form inside of the index route")
            INFO "Attempting to read GnuCash book to create TransactionForm.")
         (mkBook l l 0)).
Proof.
  intros Hopen. unfold index, TransactionForm_new.
  rewrite bind_logger, bind_assoc, bind_logger, bind_assoc.
  set (s1 := logged (logged s INFO _) INFO _).
  pose proof (list_accounts_run path s1) as Hrun. rewrite Hopen in Hrun.
  rewrite (bind_returned _ _ _ _ _ Hrun), bind_ret.
  destruct (posted _); reflexivity.
Qed.

(** X25: without a valid submission the index route renders the form,
    whose account choices are the full names of the accounts of the
    book in ascending order; it creates no transaction. *)
Theorem index_renders_form (path : string)
  (posted : list string -> option Submission) (s : State) (l : Ledger) :
  open_path path true true false = inl l ->
  posted (sorted (fun x => x) (map fullname (accounts l))) = None ->
  exists choices,
    fst (index path posted s) = Returned (Rendered "index.html" choices)
    /\ Permutation choices (map fullname (accounts l))
    /\ Sorted text_le choices
    /\ book (snd (index path posted s)) = mkBook l l 0.
Proof.
  intros Hopen Hposted. rewrite (index_form _ _ _ _ Hopen), Hposted.
  eexists. split; [reflexivity|]. split; [apply sorted_perm|].
  split; [apply (sorted_Sorted (fun x => x))|reflexivity].
Qed.

(** X26: for a valid submission the index route opens the book for
    writing, calls [add_transaction] with the submitted data and then
    redirects to itself; it flashes that the transaction was saved, in
    the category [success], exactly when [add_transaction] returned
    [True], and that it was not saved, in the category [danger], when it
    returned [False] or [None]; the message shows the amount with two
    decimals. *)
Theorem index_flashes_outcome (path : string)
  (posted : list string -> option Submission) (s : State) (l1 l2 : Ledger)
  (form : Submission) :
  open_path path true true false = inl l1 ->
  posted (sorted (fun x => x) (map fullname (accounts l1))) = Some form ->
  open_path path false true false = inl l2 ->
  let s3 :=
    with_book
      (logged
         (logged
            (logged s INFO "Creating new form inside of the index route")
            INFO "Attempting to read GnuCash book to create TransactionForm.")
         INFO "Attempting to open book in index route")
      (mkBook l2 l2 0) in
  let added :=
    add_transaction (description_data form) (amount_data form)
      (debit_data form) (credit_data form) s3 in
  let shown := format_float_2f (float_of_decimal (amount_data form)) in
  (fst added = Returned (Some true) ->
   fst (index path posted s)
   = Returned
       (Redirected "index"
          ("Transaction for " ++ shown ++ " saved to GnuCash file.")
          "success"))
  /\ (fst added = Returned (Some false) \/ fst added = Returned None ->
      fst (index path posted s)
      = Returned
          (Redirected "index"
             ("Transaction for " ++ shown ++ " was not saved to GnuCash file.")
             "danger"))
  /\ book (snd (index path posted s)) = book (snd added).
Proof.
  intros Hopen1 Hposted Hopen2 s3 added shown.
  rewrite (index_form _ _ _ _ Hopen1), Hposted.
  rewrite bind_logger.
  set (s2 := logged (with_book _ _) INFO _).
  pose proof (open_book_run path false true false s2) as Hrun.
  rewrite Hopen2 in Hrun.
  rewrite (bind_returned _ _ _ _ _ Hrun).
  change (with_book s2 (mkBook l2 l2 0)) with s3.
  assert (Hadd : add_transaction (description_data form) (amount_data form)
                   (debit_data form) (credit_data form) s3 = added)
    by reflexivity.
  clearbody added. clear Hrun.
  destruct added as [[[[|]|]|e|c] s4];
    first [rewrite (bind_returned _ _ _ _ _ Hadd)
          |rewrite (bind_raised _ _ _ _ _ Hadd)
          |rewrite (bind_exited _ _ _ _ _ Hadd)];
    (split; [|split]); try reflexivity; intros H; try discriminate;
    try (destruct H; discriminate); reflexivity.
Qed.

End Routes.

(** ** Runs of the further properties on the sample books *)

Lemma get_account_sound_witness :
  In cash (accounts (session (opened fresh)))
  /\ lower (fullname cash) = lower "ASSETS:cash".
Proof.
  apply (get_account_sound "ASSETS:cash" (opened fresh) cash).
  vm_compute. reflexivity.
Defined.

Lemma get_account_first_witness :
  get_account "Assets:Cash" (opened shadowed) = Some lower_cash.
Proof.
  apply (get_account_first "Assets:Cash" (opened shadowed) [] [cash; food]
           lower_cash).
  - reflexivity.
  - intros x [].
  - reflexivity.
Defined.

Lemma get_account_ignores_case_witness :
  get_account "assets:CASH" (opened fresh)
  = get_account "Assets:Cash" (opened fresh).
Proof.
  apply (proj1 (get_account_ignores_case "assets:CASH" "Assets:Cash"
                  (opened fresh))).
  reflexivity.
Defined.

Lemma get_account_own_name_witness :
  exists a' before after,
    get_account (fullname cash) (opened shadowed) = Some a'
    /\ lower (fullname a') = lower (fullname cash)
    /\ accounts (session (opened shadowed)) = before ++ a' :: after
    /\ (a' = cash \/ In cash after).
Proof.
  apply (get_account_own_name (opened shadowed) cash).
  right. left. reflexivity.
Defined.

Lemma open_book_outcomes_witness :
  open_book (lib := reliable fresh) "book.gnucash" false true false
    (state one [])
  = (Returned tt, with_book (state one []) (mkBook fresh fresh 0))
  /\ fst (open_book (lib := reliable fresh) "other.gnucash" false true false
            (state one []))
     = Exited 1.
Proof.
  destruct (open_book_outcomes (lib := reliable fresh) "book.gnucash" false
              true false (state one [])) as (H1 & _ & _).
  destruct (open_book_outcomes (lib := reliable fresh) "other.gnucash" false
              true false (state one [])) as (_ & H2 & _).
  split.
  - apply H1. reflexivity.
  - apply (H2 "Database does not exist"). reflexivity.
Defined.

Lemma list_accounts_sorted_witness :
  exists l,
    open_path (Library := reliable one) "book.gnucash" true true false = inl l
    /\ Permutation ["Assets:Cash"; "Expenses-Old"; "Expenses:Food"]
         (map fullname (accounts l))
    /\ Sorted text_le ["Assets:Cash"; "Expenses-Old"; "Expenses:Food"]
    /\ log (snd (list_accounts (lib := reliable one) "book.gnucash"
                   (state one [])))
       = log (state one []).
Proof.
  apply (list_accounts_sorted (lib := reliable one) "book.gnucash"
           (state one [])).
  vm_compute. reflexivity.
Defined.

Lemma list_accounts_unopened_witness :
  fst (list_accounts (lib := reliable one) "other.gnucash" (state one []))
  = Exited 1.
Proof.
  destruct (list_accounts_unopened (lib := reliable one) "other.gnucash"
              (state one []) (GnucashException "Database does not exist"))
    as (_ & H & _).
  - reflexivity.
  - apply H. eexists. reflexivity.
Defined.

Lemma add_account_creates_witness :
  fst (add_account (lib := reliable fresh) "Rent" "Expenses" (state fresh []))
  = Returned true
  /\ accounts
       (session
          (book
             (snd (add_account (lib := reliable fresh) "Rent" "Expenses"
                     (state fresh [])))))
     = [assets; cash; expenses; food;
        mkAccount "Rent" "Expenses:Rent" "EXPENSE" "Expenses" USD].
Proof.
  destruct (add_account_creates (lib := reliable fresh) "Rent" "Expenses"
              (state fresh []) expenses USD) as (H1 & H2 & _);
    [vm_compute; reflexivity ..|].
  split; [exact H1|exact H2].
Defined.

Lemma add_account_duplicate_witness :
  fst (add_account (lib := reliable fresh) "FOOD" "Expenses" (state fresh []))
  = Returned false.
Proof.
  rewrite (add_account_duplicate (lib := reliable fresh) "FOOD" "Expenses"
             (state fresh []) expenses);
    vm_compute; reflexivity.
Defined.

Lemma add_account_no_parent_witness :
  book (snd (add_account (lib := reliable fresh) "Rent" "expenses"
               (state fresh [])))
  = book (state fresh []).
Proof.
  apply (add_account_no_parent (lib := reliable fresh) "Rent" "expenses"
           (state fresh [])).
  vm_compute. reflexivity.
Defined.

Lemma add_account_twice_witness :
  fst (add_account (lib := reliable fresh) "RENT" "Expenses"
         (snd (add_account (lib := reliable fresh) "Rent" "Expenses"
                 (state fresh []))))
  = Returned false.
Proof.
  apply (add_account_twice (lib := reliable fresh) "Rent" "RENT" "Expenses"
           (state fresh []) expenses USD);
    vm_compute; reflexivity.
Defined.

Lemma add_account_then_get_account_witness :
  get_account "Expenses:Rent"
    (book (snd (add_account (lib := reliable fresh) "Rent" "Expenses"
                  (state fresh []))))
  = Some (mkAccount "Rent" "Expenses:Rent" "EXPENSE" "Expenses" USD).
Proof.
  destruct (add_account_then_get_account (lib := reliable fresh) "Rent"
              "Expenses" (state fresh []) expenses USD) as (_ & H);
    [vm_compute; reflexivity ..|].
  apply H. vm_compute. reflexivity.
Defined.

Lemma last_n_transactions_at_most_n_witness :
  exists rows,
    fst (last_n_transactions (lib := reliable three) 2 (state three []))
    = Returned rows
    /\ rows
       = listing
           (rev (last_n (Z.to_nat 2)
                   (transactions (session (book (state three []))))))
    /\ Z.of_nat (List.length rows) <= 2
    /\ (Z.of_nat (List.length rows) < 2 ->
        Z.of_nat
          (List.length (transactions (session (book (state three [])))))
        < 2
        \/ exists t,
             In t (last_n (Z.to_nat 2)
                     (transactions (session (book (state three [])))))
             /\ two_splits t = false).
Proof.
  apply (last_n_transactions_at_most_n (lib := reliable three) 2
           (state three [])).
  reflexivity.
Defined.

Lemma last_n_transactions_whole_book_witness :
  fst (last_n_transactions (lib := reliable three) 50 (state three []))
  = Returned (listing (rev (transactions (session (book (state three [])))))).
Proof.
  apply (last_n_transactions_whole_book (lib := reliable three) 50
           (state three [])); vm_compute; [reflexivity|discriminate].
Defined.

Lemma last_n_transactions_negative_witness :
  fst (last_n_transactions (lib := reliable three) (-1) (state three []))
  = Returned
      (listing (rev (skipn (Z.to_nat (- -1))
                       (transactions (session (book (state three []))))))).
Proof.
  apply (last_n_transactions_negative (lib := reliable three) (-1)
           (state three [])).
  reflexivity.
Defined.

Lemma last_n_transactions_row_shape_witness :
  map fst dinner_row = ["date"; "source"; "dest"; "description"; "amount"]
  /\ exists t,
       In t (transactions (session (book (state three []))))
       /\ dict_get "date" dinner_row = Some (str_date (enter_date t))
       /\ dict_get "description" dinner_row = Some (description t).
Proof.
  apply (last_n_transactions_row_shape (lib := reliable three) 2
           (state three []) [dinner_row] dinner_row).
  - vm_compute. reflexivity.
  - left. reflexivity.
Defined.



Lemma add_transaction_names_missing_account_witness :
  add_transaction (lib := reliable fresh) "Bad" (mkDecimal 500 (-2))
    "NoSuchAccount" "Expenses:Food" (state fresh [])
  = (Returned (Some false),
     logged (state fresh []) ERROR
       "The debit account NoSuchAccount was not found. Skipping.").
Proof.
  apply (proj1 (add_transaction_names_missing_account (lib := reliable fresh)
                  "Bad" (mkDecimal 500 (-2)) "NoSuchAccount" "Expenses:Food"
                  (state fresh []) food));
    reflexivity.
Defined.

Lemma add_transaction_currency_witness :
  exists t c,
    transactions
      (session
         (book
            (snd (add_transaction (lib := reliable fresh) "Lunch"
                    twelve_fifty "Assets:Cash" "Expenses:Food"
                    (state fresh [])))))
    = transactions (session (book (state fresh []))) ++ [t]
    /\ currency t = Some c
    /\ (forall usd,
           usd_currency (book (state fresh [])) = Some usd ->
           c = usd
           /\ commodities
                (session
                   (book
                      (snd (add_transaction (lib := reliable fresh) "Lunch"
                              twelve_fifty "Assets:Cash" "Expenses:Food"
                              (state fresh [])))))
              = commodities (session (book (state fresh [])))).
Proof.
  apply (add_transaction_currency (lib := reliable fresh) "Lunch"
           twelve_fifty "Assets:Cash" "Expenses:Food" (state fresh [])).
  vm_compute. reflexivity.
Defined.

Lemma add_transaction_then_listing_witness :
  exists credit debit row,
    get_account "Expenses:Food" (book (state fresh [])) = Some credit
    /\ get_account "Assets:Cash" (book (state fresh [])) = Some debit
    /\ fst (last_n_transactions (lib := reliable fresh) 1
              (snd (add_transaction (lib := reliable fresh) "Refund"
                      minus_five "Assets:Cash" "Expenses:Food"
                      (state fresh []))))
       = Returned [row]
    /\ dict_get "description" row = Some "Refund"
    /\ dict_get "amount" row
       = Some ("$" ++ format_float_2f
                         (float_of_decimal (dec_abs minus_five)))%string
    /\ (is_positive minus_five = true ->
        dict_get "source" row = Some (fullname debit)
        /\ dict_get "dest" row = Some (fullname credit))
    /\ (is_positive minus_five = false ->
        dict_get "source" row = Some (fullname credit)
        /\ dict_get "dest" row = Some (fullname debit)).
Proof.
  apply (add_transaction_then_listing (lib := reliable fresh) "Refund"
           minus_five "Assets:Cash" "Expenses:Food" (state fresh [])).
  vm_compute. reflexivity.
Defined.

(** The listing of a refund names the credit account as its source. *)
Example refund_listing :
  fst (last_n_transactions (lib := reliable fresh) 1
         (snd (add_transaction (lib := reliable fresh) "Refund" minus_five
                 "Assets:Cash" "Expenses:Food" (state fresh []))))
  = Returned
      [[("date", "2021-01-04"); ("source", "Expenses:Food");
        ("dest", "Assets:Cash"); ("description", "Refund");
        ("amount", "$5.00")]].
Proof. vm_compute. reflexivity. Qed.

Lemma transactions_route_lists_witness :
  exists rows,
    fst (transactions_route (lib := reliable three) "book.gnucash"
           (state three [("NUM_TRANSACTIONS", "2")]))
    = Returned (rows, 2)
    /\ rows = listing (rev (last_n (Z.to_nat 2) (transactions three)))
    /\ Z.of_nat (List.length rows) <= 2.
Proof.
  apply (transactions_route_lists (lib := reliable three) "book.gnucash"
           (state three [("NUM_TRANSACTIONS", "2")]) three "2" 2);
    vm_compute; reflexivity.
Defined.

Lemma transactions_route_failures_witness :
  fst (transactions_route (lib := reliable three) "other.gnucash"
         (state three [("NUM_TRANSACTIONS", "2")]))
  = Exited 1
  /\ exists m,
       fst (transactions_route (lib := reliable three) "book.gnucash"
              (state three [("NUM_TRANSACTIONS", "two")]))
       = Raised (ValueError m).
Proof.
  split.
  - apply (proj1 (transactions_route_failures (lib := reliable three)
                    "other.gnucash"
                    (state three [("NUM_TRANSACTIONS", "2")]))
             "Database does not exist").
    reflexivity.
  - apply (proj2 (proj2 (transactions_route_failures (lib := reliable three)
                           "book.gnucash"
                           (state three [("NUM_TRANSACTIONS", "two")])))
             three "two");
      vm_compute; reflexivity.
Defined.

Lemma balances_rows_or_failure_witness :
  (exists rows,
      fst (balances (lib := reliable one) "book.gnucash" (state one []))
      = Returned rows
      /\ List.length rows = List.length (accounts one))
  /\ fst (balances (lib := reliable one) "other.gnucash" (state one []))
     = Exited 1.
Proof.
  split.
  - apply (proj1 (balances_rows_or_failure (lib := reliable one)
                    "book.gnucash" (state one [])) one).
    reflexivity.
  - apply (proj1 (proj2 (balances_rows_or_failure (lib := reliable one)
                           "other.gnucash" (state one [])))
             "Database does not exist").
    reflexivity.
Defined.

Lemma index_renders_form_witness :
  exists choices,
    fst (index (lib := reliable one) "book.gnucash" (fun _ => None)
           (state one []))
    = Returned (Rendered "index.html" choices)
    /\ Permutation choices (map fullname (accounts one))
    /\ Sorted text_le choices
    /\ book (snd (index (lib := reliable one) "book.gnucash" (fun _ => None)
                    (state one [])))
       = mkBook one one 0.
Proof.
  apply (index_renders_form (lib := reliable one) "book.gnucash"
           (fun _ => None) (state one []) one);
    reflexivity.
Defined.

Lemma index_flashes_outcome_witness :
  fst (index (lib := reliable fresh) "book.gnucash"
         (fun _ =>
            Some (mkSubmission "Assets:Cash" "Expenses:Food" twelve_fifty
                    "Lunch"))
         (state fresh []))
  = Returned
      (Redirected "index" "Transaction for 12.50 saved to GnuCash file."
         "success").
Proof.
  apply (proj1 (index_flashes_outcome (lib := reliable fresh) "book.gnucash"
                  (fun _ =>
                     Some (mkSubmission "Assets:Cash" "Expenses:Food"
                             twelve_fifty "Lunch"))
                  (state fresh []) fresh fresh
                  (mkSubmission "Assets:Cash" "Expenses:Food" twelve_fifty
                     "Lunch")
                  eq_refl eq_refl eq_refl)).
  vm_compute. reflexivity.
Defined.

(** A submission that names two accounts the book does not hold is
    answered with the [danger] message: [add_transaction] returned
    [None]. *)
Example index_flashes_danger :
  fst (index (lib := reliable fresh) "book.gnucash"
         (fun _ => Some (mkSubmission "Nowhere" "Nothing" twelve_fifty "Lunch"))
         (state fresh []))
  = Returned
      (Redirected "index"
         "Transaction for 12.50 was not saved to GnuCash file." "danger").
Proof. vm_compute. reflexivity. Qed.

Lemma present_configuration_witness :
  get_book_name_from_env (state three partial_env)
  = (Returned "book.gnucash", state three partial_env)
  /\ get_gnucash_dir (state three partial_env)
     = (Returned ".", state three partial_env).
Proof.
  split.
  - apply (proj1 (present_configuration (state three partial_env)
                    "book.gnucash")).
    reflexivity.
  - apply (proj1 (proj2 (present_configuration (state three partial_env)
                           "."))).
    reflexivity.
Defined.

(** ** The start of the application *)

(** X29: at its start the application reads the file name before the
    directory.  With both set it composes the path [directory/file] and
    logs one info record that tells whether the path exists; without
    [GNUCASH_FILE] it exits with code 1 after one critical record,
    whether or not the directory is set; with the file name but without
    [GNUCASH_DIR] it exits with code 1 as well. *)
Theorem startup_outcomes (path_exists : string -> bool) (s : State) :
  (forall name dir,
      dict_get "GNUCASH_FILE" (environ s) = Some name ->
      dict_get "GNUCASH_DIR" (environ s) = Some dir ->
      startup path_exists s
      = (Returned (dir ++ "/" ++ name)%string,
         logged s INFO
           ("At the global start, the book's existence is: "
              ++ (if path_exists (dir ++ "/" ++ name)%string
                  then "True" else "False"))))
  /\ (dict_get "GNUCASH_FILE" (environ s) = None ->
      startup path_exists s
      = (Exited 1,
         logged s CRITICAL
           "Could not get GnuCash book name from env. var. 'GNUCASH_FILE'."))
  /\ (forall name,
         dict_get "GNUCASH_FILE" (environ s) = Some name ->
         dict_get "GNUCASH_DIR" (environ s) = None ->
         fst (startup path_exists s) = Exited 1
         /\ book (snd (startup path_exists s)) = book s).
Proof.
  split; [|split].
  - intros name dir Hf Hd. unfold startup.
    unfold get_book_name_from_env, get_gnucash_dir, try_except, env_item, bind.
    rewrite Hf, Hd. reflexivity.
  - intros Hf. unfold startup.
    unfold get_book_name_from_env, get_gnucash_dir, try_except, env_item, bind.
    rewrite Hf. reflexivity.
  - intros name Hf Hd. unfold startup.
    unfold get_book_name_from_env, get_gnucash_dir, try_except, env_item, bind.
    rewrite Hf, Hd. split; reflexivity.
Qed.

Lemma startup_outcomes_witness :
  startup (fun _ => true) (state three partial_env)
  = (Returned "./book.gnucash",
     logged (state three partial_env) INFO
       "At the global start, the book's existence is: True")
  /\ fst (startup (fun _ => true) (state three [("GNUCASH_DIR", ".")]))
     = Exited 1.
Proof.
  split.
  - apply (proj1 (startup_outcomes (fun _ => true) (state three partial_env))
             "book.gnucash" "."); reflexivity.
  - destruct (startup_outcomes (fun _ => true)
                (state three [("GNUCASH_DIR", ".")])) as (_ & H & _).
    rewrite H by reflexivity. reflexivity.
Defined.
